(** * thunder.core.proxies: number proxies, tensor proxies and variables

    A shallow embedding of [thunder/core/proxies.py].  Python objects are
    values of the type [obj]; a method that reads the trace or the language
    context is a computation in the monad [M], which threads the [World] (the
    active trace and the active language context) and carries Python
    exceptions as results. *)

From Stdlib Require Import ZArith List String Bool Lia SpecFloat DecimalString.
Import ListNotations.

Local Open Scope string_scope.
Local Open Scope Z_scope.

(** ** Python values *)

(** The exceptions that the embedded code can raise. *)
Inductive exn : Type :=
| TypeError
| AttributeError
| NameError
| KeyError
| ValueError
| ZeroDivisionError
| OverflowError
| NoActiveTraceError
| DuplicateNameError
| CheckError
| ContextError (code : nat).

(** The outcome of evaluating an expression: a value or a raised exception. *)
Inductive Res (A : Type) : Type :=
| Ok (a : A)
| Raise (e : exn).

Arguments Ok {A} a.
Arguments Raise {A} e.

(** The classes that occur in the module.  The builtin ones come first
    ([c_Number] is [numbers.Number]), then the classes imported from the rest
    of the package, then the classes the module declares. *)
Inductive cls : Type :=
| c_object | c_NoneType | c_NotImplementedType | c_type | c_str | c_tuple
| c_int | c_bool | c_float | c_complex | c_Number
| c_Device | c_dtype
| c_VariableInterface | c_ProxyInterface
| c_NumberProxyInterface | c_TensorProxyInterface
| c_Variable | c_Proxy | c_NumberProxy
| c_ComplexProxy | c_IntegerProxy | c_FloatProxy
| c_TensorProxy
| c_other.

Definition cls_eq_dec (a b : cls) : {a = b} + {a <> b}.
Proof. decide equality. Defined.

Definition cls_eqb (a b : cls) : bool :=
  if cls_eq_dec a b then true else false.

(** A Python float is an IEEE 754 binary64 datum; a complex is a pair of
    them. *)
Definition pyfloat : Type := spec_float.

Definition float_nan : pyfloat := S754_nan.

(** Native numbers: [int], [bool], [float] and [complex] instances. *)
Inductive number : Type :=
| Int (z : Z)
| Bool (b : bool)
| Float (f : pyfloat)
| Complex (re im : pyfloat).

(** Members of the device and dtype catalogs ([thunder.core.devices],
    [thunder.core.dtypes]); the catalogs are external, a member is known
    here by its index only. *)
Inductive Device : Type := device_ (index : nat).
Inductive DType : Type := dtype_ (index : nat).

(** class Proxy: the only instance attribute is [_name]. *)
Record Proxy : Type := mkProxy { p_name : string }.

(** The classes of number proxies: the base class and its three variants. *)
Inductive number_proxy_class : Type :=
| k_NumberProxy | k_ComplexProxy | k_IntegerProxy | k_FloatProxy.

Definition class_of (k : number_proxy_class) : cls :=
  match k with
  | k_NumberProxy => c_NumberProxy
  | k_ComplexProxy => c_ComplexProxy
  | k_IntegerProxy => c_IntegerProxy
  | k_FloatProxy => c_FloatProxy
  end.

(** class NumberProxy and its three variants.  [np_class] is the object's
    class, [np_value] and [np_python_type] are the attributes that
    [NumberProxy.__init__] sets, and [np_numeral] is the numeral that
    [int.__new__], [float.__new__] or [complex.__new__] stored in the object
    (absent for a bare [NumberProxy], which derives from no numeric type).
    The value is a native number or [None]: [__init__] stores what it is
    given, and a proxy stored as the value of another proxy is outside this
    model. *)
Record NumberProxy : Type := mkNumberProxy {
  np_class : number_proxy_class;
  np_name : string;
  np_value : option number;
  np_python_type : cls;
  np_numeral : option number
}.

(** class TensorProxy, with the attributes that [TensorProxy.__init__] sets.
    A shape (a Python tuple or list of integers) is the sequence of its
    entries. *)
Record TensorProxy : Type := mkTensorProxy {
  tp_name : string;
  tp_shape : list Z;
  tp_device : Device;
  tp_dtype : DType;
  tp_true_dtype : DType;
  tp_numel : Z;
  tp_ndim : Z
}.

(** Python objects. *)
Inductive obj : Type :=
| ONone
| ONotImplemented
| ONum (n : number)
| OStr (s : string)
| OPair (a b : obj)
| OClass (c : cls)
| ODevice (d : Device)
| ODType (d : DType)
| OProxy (p : Proxy)
| ONumberProxy (p : NumberProxy)
| OTensorProxy (p : TensorProxy)
| OVariable (proxy : obj)
| OGlobal (name : string)
| OOther (tag : nat).

(** The class of an object. *)
Definition type_of (o : obj) : cls :=
  match o with
  | ONone => c_NoneType
  | ONotImplemented => c_NotImplementedType
  | ONum (Int _) => c_int
  | ONum (Bool _) => c_bool
  | ONum (Float _) => c_float
  | ONum (Complex _ _) => c_complex
  | OStr _ => c_str
  | OPair _ _ => c_tuple
  | OClass _ => c_type
  | ODevice _ => c_Device
  | ODType _ => c_dtype
  | OProxy _ => c_Proxy
  | ONumberProxy p => class_of (np_class p)
  | OTensorProxy _ => c_TensorProxy
  | OVariable _ => c_Variable
  | OGlobal _ => c_other
  | OOther _ => c_other
  end.

(** An optional native number as an object: [None] stands for no value. *)
Definition obj_of_value (v : option number) : obj :=
  match v with
  | None => ONone
  | Some n => ONum n
  end.

(** ** Classes: bases, method resolution order, [isinstance] *)

(** The bases of each class, as its [class] statement lists them.  The four
    interface classes and the two catalog classes are declared elsewhere in
    the package; they are taken to derive from [object] alone. *)
Definition bases (c : cls) : list cls :=
  match c with
  | c_object => []
  | c_bool => [c_int]
  | c_Proxy => [c_VariableInterface; c_ProxyInterface]
  | c_NumberProxy => [c_Proxy; c_NumberProxyInterface]
  | c_ComplexProxy => [c_NumberProxy; c_complex]
  | c_IntegerProxy => [c_NumberProxy; c_int]
  | c_FloatProxy => [c_NumberProxy; c_float]
  | c_TensorProxy => [c_Proxy; c_TensorProxyInterface]
  | _ => [c_object]
  end.

Definition in_tail (c : cls) (l : list cls) : bool :=
  match l with
  | [] => false
  | _ :: t => existsb (cls_eqb c) t
  end.

(** The first head of a sequence that is in the tail of no sequence. *)
Fixpoint pick_head (cands seqs : list (list cls)) : option cls :=
  match cands with
  | [] => None
  | [] :: rest => pick_head rest seqs
  | (h :: _) :: rest =>
      if existsb (in_tail h) seqs then pick_head rest seqs else Some h
  end.

Definition drop_head (c : cls) (l : list cls) : list cls :=
  match l with
  | h :: t => if cls_eqb h c then t else l
  | [] => []
  end.

Definition nonempty (l : list cls) : bool :=
  match l with [] => false | _ => true end.

(** The merge step of Python's C3 linearization. *)
Fixpoint c3_merge (fuel : nat) (seqs : list (list cls)) : option (list cls) :=
  match filter nonempty seqs with
  | [] => Some []
  | live =>
      match fuel with
      | O => None
      | S fuel' =>
          match pick_head live live with
          | None => None
          | Some c => option_map (cons c) (c3_merge fuel' (map (drop_head c) live))
          end
      end
  end.

Fixpoint sequence_opt {A : Type} (l : list (option A)) : option (list A) :=
  match l with
  | [] => Some []
  | None :: _ => None
  | Some a :: t => option_map (cons a) (sequence_opt t)
  end.

Fixpoint linearize (fuel : nat) (c : cls) : option (list cls) :=
  match fuel with
  | O => None
  | S fuel' =>
      match sequence_opt (map (linearize fuel') (bases c)) with
      | None => None
      | Some lins => option_map (cons c) (c3_merge 32 (lins ++ [bases c]))
      end
  end.

(** The method resolution order of a class. *)
Definition mro (c : cls) : list cls :=
  match linearize 8 c with
  | Some l => l
  | None => [c]
  end.

(** [numbers.Number] is the abstract base class with which [int], [float]
    and [complex] are registered: their subclasses are its subclasses. *)
Definition registered_Number (c : cls) : bool :=
  existsb (fun b => cls_eqb b c_int || cls_eqb b c_float || cls_eqb b c_complex)
    (mro c).

Definition issubclass (c k : cls) : bool :=
  existsb (cls_eqb k) (mro c) || (cls_eqb k c_Number && registered_Number c).

Definition isinstance (o : obj) (k : cls) : bool := issubclass (type_of o) k.

(** The names bound in the body of each class of the module. *)
Definition unary_dunders : list string :=
  ["__abs__"; "__ceil__"; "__floor__"; "__invert__"; "__neg__"; "__pos__";
   "__round__"; "__trunc__"].

Definition conversion_dunders : list string :=
  ["__complex__"; "__float__"; "__int__"].

Definition arithmetic_dunders : list string :=
  ["__add__"; "__radd__"; "__divmod__"; "__rdivmod__"; "__floordiv__";
   "__rfloordiv__"; "__mod__"; "__rmod__"; "__mul__"; "__rmul__"; "__pow__";
   "__rpow__"; "__sub__"; "__rsub__"; "__truediv__"; "__rtruediv__"].

Definition shift_dunders : list string :=
  ["__lshift__"; "__rlshift__"; "__rshift__"; "__rrshift__"].

Definition logical_dunders : list string :=
  ["__and__"; "__rand__"; "__ge__"; "__gt__"; "__le__"; "__lt__"; "__ne__";
   "__or__"; "__ror__"; "__xor__"; "__rxor__"].

Definition matmul_dunders : list string := ["__matmul__"; "__rmatmul__"].

Definition number_proxy_body : list string :=
  ["__new__"; "__init__"; "replace_name"; "type_string"]
  ++ unary_dunders ++ conversion_dunders ++ arithmetic_dunders
  ++ shift_dunders ++ matmul_dunders.

Definition class_body (c : cls) : list string :=
  match c with
  | c_Variable => ["__init__"; "__hash__"; "__eq__"; "__repr__"]
  | c_Proxy => ["__init__"; "name"; "replace_name"; "__repr__"; "type_string"]
  | c_NumberProxy => ["__init__"; "__hash__"; "replace_name"; "known_value"]
  | c_ComplexProxy | c_IntegerProxy | c_FloatProxy => number_proxy_body
  | c_TensorProxy =>
      ["__init__"; "replace_name"; "type_string"; "size"; "__getattr__";
       "__getitem__"]
      ++ unary_dunders ++ conversion_dunders ++ arithmetic_dunders
      ++ ["__eq__"] ++ logical_dunders ++ shift_dunders ++ matmul_dunders
  | _ => []
  end.

Definition mem_string (s : string) (l : list string) : bool :=
  existsb (String.eqb s) l.

(** ** The host: native numbers and hashing *)

(** The binary arithmetic and shift operations. *)
Inductive binop : Type :=
| Add | Sub | Mul | TrueDiv | FloorDiv | Mod | DivMod | Pow | LShift | RShift.

(** The special methods that implement them, forward and reflected. *)
Inductive dunder : Type :=
| __add__ | __radd__
| __divmod__ | __rdivmod__
| __floordiv__ | __rfloordiv__
| __mod__ | __rmod__
| __mul__ | __rmul__
| __pow__ | __rpow__
| __sub__ | __rsub__
| __truediv__ | __rtruediv__
| __lshift__ | __rlshift__
| __rshift__ | __rrshift__.

Definition op_of (d : dunder) : binop :=
  match d with
  | __add__ | __radd__ => Add
  | __divmod__ | __rdivmod__ => DivMod
  | __floordiv__ | __rfloordiv__ => FloorDiv
  | __mod__ | __rmod__ => Mod
  | __mul__ | __rmul__ => Mul
  | __pow__ | __rpow__ => Pow
  | __sub__ | __rsub__ => Sub
  | __truediv__ | __rtruediv__ => TrueDiv
  | __lshift__ | __rlshift__ => LShift
  | __rshift__ | __rrshift__ => RShift
  end.

Definition reflected (d : dunder) : bool :=
  match d with
  | __radd__ | __rdivmod__ | __rfloordiv__ | __rmod__ | __rmul__ | __rpow__
  | __rsub__ | __rtruediv__ | __rlshift__ | __rrshift__ => true
  | _ => false
  end.

Definition forward_of (op : binop) : dunder :=
  match op with
  | Add => __add__ | Sub => __sub__ | Mul => __mul__
  | TrueDiv => __truediv__ | FloorDiv => __floordiv__ | Mod => __mod__
  | DivMod => __divmod__ | Pow => __pow__
  | LShift => __lshift__ | RShift => __rshift__
  end.

Definition reflected_of (op : binop) : dunder :=
  match op with
  | Add => __radd__ | Sub => __rsub__ | Mul => __rmul__
  | TrueDiv => __rtruediv__ | FloorDiv => __rfloordiv__ | Mod => __rmod__
  | DivMod => __rdivmod__ | Pow => __rpow__
  | LShift => __rlshift__ | RShift => __rrshift__
  end.

(** The result of an arithmetic operation on native numbers: a number, or
    the pair that [divmod] returns. *)
Inductive numres : Type :=
| RNum (n : number)
| RPair (q r : number).

Definition obj_of_numres (r : numres) : obj :=
  match r with
  | RNum n => ONum n
  | RPair q r => OPair (ONum q) (ONum r)
  end.

(** What the Python runtime fixes and this module does not: floating point
    and complex arithmetic (including the integer operations whose result is
    a float), and the hash of builtin objects. *)
Class PyRuntime : Type := {
  float_arith : binop -> number -> number -> Res numres;
  native_hash : obj -> Z
}.

(** What the rest of the package fixes: the name generator of the trace
    context, the dtype catalog's conversions, and the names bound in the
    bodies of the classes that are declared outside this module. *)
Class Package : Type := {
  fresh_name : list string -> string;
  numbertype_to_dtype : cls -> DType;
  to_strong_dtype : DType -> DType;
  external_body : cls -> list string
}.

(** A runtime and a package to evaluate the module on.  The runtime adds,
    subtracts and multiplies two floats in binary64 and implements no other
    floating point operation; it hashes an integer to itself and a string to
    its length.  The package names proxies [t0], [t1], ... by the number of
    names registered, keeps the weak dtypes at the indices from 100 on, and
    its interface classes have empty bodies. *)
Definition sample_float_arith (op : binop) (l r : number) : Res numres :=
  match op, l, r with
  | Add, Float x, Float y => Ok (RNum (Float (SFadd 53 1024 x y)))
  | Sub, Float x, Float y => Ok (RNum (Float (SFsub 53 1024 x y)))
  | Mul, Float x, Float y => Ok (RNum (Float (SFmul 53 1024 x y)))
  | _, _, _ => Raise TypeError
  end.

Definition sample_hash (o : obj) : Z :=
  match o with
  | ONum (Int z) => z
  | ONum (Bool b) => Z.b2z b
  | OStr s => Z.of_nat (String.length s)
  | _ => 0
  end.

Definition sample_runtime : PyRuntime :=
  {| float_arith := sample_float_arith; native_hash := sample_hash |}.

Definition sample_fresh_name (registered : list string) : string :=
  "t" ++ NilEmpty.string_of_uint (Nat.to_uint (List.length registered)).

Definition sample_numbertype_to_dtype (c : cls) : DType :=
  match c with
  | c_bool => dtype_ 100
  | c_int => dtype_ 101
  | c_float => dtype_ 102
  | _ => dtype_ 103
  end.

Definition sample_to_strong_dtype (d : DType) : DType :=
  match d with
  | dtype_ n => dtype_ (Nat.modulo n 100)
  end.

Definition sample_package : Package :=
  {| fresh_name := sample_fresh_name;
     numbertype_to_dtype := sample_numbertype_to_dtype;
     to_strong_dtype := sample_to_strong_dtype;
     external_body := fun _ => [] |}.

Section Proxies.

Context {runtime : PyRuntime} {package : Package}.

(** *** Integer arithmetic *)

Definition as_int (n : number) : option Z :=
  match n with
  | Int z => Some z
  | Bool b => Some (Z.b2z b)
  | _ => None
  end.

(** [x op y] on two Python integers.  Floor division and modulo round
    towards minus infinity, as [Z.div] and [Z.modulo] do; integers are
    unbounded. *)
Definition int_arith (op : binop) (x y : Z) : Res numres :=
  match op with
  | Add => Ok (RNum (Int (x + y)))
  | Sub => Ok (RNum (Int (x - y)))
  | Mul => Ok (RNum (Int (x * y)))
  | TrueDiv =>
      if y =? 0 then Raise ZeroDivisionError
      else float_arith TrueDiv (Int x) (Int y)
  | FloorDiv =>
      if y =? 0 then Raise ZeroDivisionError else Ok (RNum (Int (x / y)))
  | Mod =>
      if y =? 0 then Raise ZeroDivisionError else Ok (RNum (Int (x mod y)))
  | DivMod =>
      if y =? 0 then Raise ZeroDivisionError
      else Ok (RPair (Int (x / y)) (Int (x mod y)))
  | Pow =>
      if y <? 0 then float_arith Pow (Int x) (Int y)
      else Ok (RNum (Int (x ^ y)))
  | LShift =>
      if y <? 0 then Raise ValueError else Ok (RNum (Int (Z.shiftl x y)))
  | RShift =>
      if y <? 0 then Raise ValueError else Ok (RNum (Int (Z.shiftr x y)))
  end.

(** [l op r] on two native numbers. *)
Definition arith (op : binop) (l r : number) : Res numres :=
  match as_int l, as_int r with
  | Some x, Some y => int_arith op x y
  | _, _ => float_arith op l r
  end.

(** *** The special methods of the native numeric types *)

(** The place of a numeric type in the tower: a type's methods accept the
    operands of its own and of the lower types. *)
Definition rank (n : number) : nat :=
  match n with
  | Int _ | Bool _ => 0
  | Float _ => 1
  | Complex _ _ => 2
  end.

(** Whether the type of [n] has the method [d]: [float] has no shift
    methods, and [complex] has neither those nor floor division, modulo and
    divmod. *)
Definition has_method (n : number) (d : dunder) : bool :=
  match n with
  | Int _ | Bool _ => true
  | Float _ =>
      match op_of d with
      | LShift | RShift => false
      | _ => true
      end
  | Complex _ _ =>
      match op_of d with
      | LShift | RShift | FloorDiv | Mod | DivMod => false
      | _ => true
      end
  end.

(** The numeral that a builtin method sees in an argument. *)
Definition numeral_of (o : obj) : option number :=
  match o with
  | ONum n => Some n
  | ONumberProxy p => np_numeral p
  | _ => None
  end.

(** [a.__d__(arg)] once the method is found: [NotImplemented] for an
    argument that the type of [a] does not accept. *)
Definition value_method (d : dunder) (a : number) (arg : obj) : Res obj :=
  match numeral_of arg with
  | Some b =>
      if (rank b <=? rank a)%nat then
        match (if reflected d then arith (op_of d) b a
               else arith (op_of d) a b) with
        | Ok r => Ok (obj_of_numres r)
        | Raise e => Raise e
        end
      else Ok ONotImplemented
  | None => Ok ONotImplemented
  end.

(** The attribute lookup [recv.__d__]: the bound method, or [AttributeError]
    ([None] has none of these methods). *)
Definition getattr_dunder (recv : obj) (d : dunder) : Res (obj -> Res obj) :=
  match recv with
  | ONum a => if has_method a d then Ok (value_method d a) else Raise AttributeError
  | _ => Raise AttributeError
  end.

(** The type slot that the binary operator protocol consults. *)
Definition slot (d : dunder) (recv arg : obj) : option (Res obj) :=
  match recv with
  | ONum a => if has_method a d then Some (value_method d a arg) else None
  | _ => None
  end.

(** The expression [l op r] on native operands: the left operand's method
    first, then the right operand's reflected method, [TypeError] when both
    are missing or decline. *)
Definition py_operator (op : binop) (l r : obj) : Res obj :=
  let try_reflected :=
    match slot (reflected_of op) r l with
    | None | Some (Ok ONotImplemented) => Raise TypeError
    | Some res => res
    end in
  match slot (forward_of op) l r with
  | None | Some (Ok ONotImplemented) => try_reflected
  | Some res => res
  end.

(** [recv.__pos__()] *)
Definition value_pos (recv : obj) : Res obj :=
  match recv with
  | ONum (Bool b) => Ok (ONum (Int (Z.b2z b)))
  | ONum n => Ok (ONum n)
  | _ => Raise AttributeError
  end.

(** *** Conversions performed by the numeric constructors *)

(** [int(f)] for a float: truncation towards zero. *)
Definition float_trunc (f : pyfloat) : Res Z :=
  match f with
  | S754_zero _ => Ok 0
  | S754_infinity _ => Raise OverflowError
  | S754_nan => Raise ValueError
  | S754_finite s m e => Ok (cond_Zopp s (Z.shiftl (Zpos m) e))
  end.

(** [float(z)] for an integer: rounding to the nearest binary64, ties to
    even. *)
Definition float_of_Z (z : Z) : Res pyfloat :=
  match binary_normalize 53 1024 z 0 false with
  | S754_infinity _ => Raise OverflowError
  | f => Ok f
  end.

(** [int.__new__(cls, value)] *)
Definition int_new (value : number) : Res number :=
  match value with
  | Int z => Ok (Int z)
  | Bool b => Ok (Int (Z.b2z b))
  | Float f =>
      match float_trunc f with
      | Ok z => Ok (Int z)
      | Raise e => Raise e
      end
  | Complex _ _ => Raise TypeError
  end.

(** [float.__new__(cls, value)] *)
Definition float_new (value : number) : Res number :=
  match value with
  | Float f => Ok (Float f)
  | Complex _ _ => Raise TypeError
  | Int z =>
      match float_of_Z z with
      | Ok f => Ok (Float f)
      | Raise e => Raise e
      end
  | Bool b =>
      match float_of_Z (Z.b2z b) with
      | Ok f => Ok (Float f)
      | Raise e => Raise e
      end
  end.

(** [complex.__new__(cls, value)] *)
Definition complex_new (value : number) : Res number :=
  match value with
  | Complex re im => Ok (Complex re im)
  | Float f => Ok (Complex f (S754_zero false))
  | Int z =>
      match float_of_Z z with
      | Ok f => Ok (Complex f (S754_zero false))
      | Raise e => Raise e
      end
  | Bool b =>
      match float_of_Z (Z.b2z b) with
      | Ok f => Ok (Complex f (S754_zero false))
      | Raise e => Raise e
      end
  end.

(** ** The world: trace context and language context *)

(** Modelled from the spec: the name context of a trace ([thunder.core.trace]
    is not part of this module).  It is the registry of the names allocated
    in the trace; [add_name] registers a caller-supplied name and fails on a
    duplicate, [make_name] returns a name produced by the package's
    generator and registers it. *)
Record TraceCtx : Type := mkTraceCtx { names : list string }.

Definition add_name (name : string) (trace : TraceCtx) : Res TraceCtx :=
  if mem_string name (names trace) then Raise DuplicateNameError
  else Ok (mkTraceCtx (name :: names trace)).

Definition make_name (trace : TraceCtx) : string * TraceCtx :=
  let name := fresh_name (names trace) in
  (name, mkTraceCtx (name :: names trace)).

(** A method of a language context: it receives its operands and may record
    into the active trace. *)
Definition ctx_method : Type :=
  obj -> obj -> option TraceCtx -> Res obj * option TraceCtx.

(** A language context ([thunder.core.langctx]): one method per operation
    that the number proxies dispatch. *)
Record LangCtx : Type := mkLangCtx {
  lc_add : ctx_method;
  lc_sub : ctx_method;
  lc_mul : ctx_method;
  lc_true_divide : ctx_method;
  lc_floor_divide : ctx_method;
  lc_mod : ctx_method;
  lc_divmod : ctx_method;
  lc_pow : ctx_method;
  lc_lshift : ctx_method;
  lc_rshift : ctx_method
}.

Record World : Type := mkWorld {
  tracectx : option TraceCtx;
  langctx : option LangCtx
}.

(** Computations: a result and the world after it.  The world that an
    exception leaves behind is kept, as a name registered before a failure
    stays registered. *)
Definition M (A : Type) : Type := World -> Res A * World.

Definition ret {A : Type} (a : A) : M A := fun w => (Ok a, w).

Definition throw {A : Type} (e : exn) : M A := fun w => (Raise e, w).

Definition bind {A B : Type} (m : M A) (k : A -> M B) : M B :=
  fun w =>
    match m w with
    | (Ok a, w') => k a w'
    | (Raise e, w') => (Raise e, w')
    end.

Notation "x <- m ;; k" := (bind m (fun x => k))
  (at level 61, m at next level, right associativity).
Notation "m ;; k" := (bind m (fun _ => k))
  (at level 61, right associativity).

(** A pure step that may raise. *)
Definition lift {A : Type} (r : Res A) : M A := fun w => (r, w).

(** [get_langctx()]: the active language context, or [None]. *)
Definition get_langctx : M (option LangCtx) := fun w => (Ok (langctx w), w).

(** Modelled from the spec: [get_tracectx()] is the accessor of the current
    trace, which fails when no trace is active. *)
Definition get_tracectx : M TraceCtx :=
  fun w =>
    match tracectx w with
    | Some trace => (Ok trace, w)
    | None => (Raise NoActiveTraceError, w)
    end.

(** The trace is an object that its methods update in place: the update
    is written back to the world. *)
Definition set_tracectx (trace : TraceCtx) : M unit :=
  fun w => (Ok tt, mkWorld (Some trace) (langctx w)).

(** The call [langctx.method(a, b)]. *)
Definition call_ctx (method : ctx_method) (a b : obj) : M obj :=
  fun w =>
    let (r, trace') := method a b (tracectx w) in
    (r, mkWorld trace' (langctx w)).

(** ** Helpers of [thunder.core.baseutils] *)

(** Modelled from the spec: [baseutils.check_type(x, types)] validates that
    [x] is an instance of one of [types] and fails otherwise. *)
Definition check_type (x : obj) (types : list cls) : Res unit :=
  if existsb (isinstance x) types then Ok tt else Raise CheckError.

(** Modelled from the spec: [baseutils.check_valid_shape(shape)] validates
    that every entry is a non-negative extent. *)
Definition check_valid_shape (shape : list Z) : Res unit :=
  if forallb (fun l => 0 <=? l) shape then Ok tt else Raise CheckError.

(** ** Names of the module *)

(** The names that the module binds at its top level: the imported ones,
    then the classes and functions in the order of their definitions. *)
Definition module_globals : list string :=
  ["Number"; "Type"; "Optional"; "Any"; "Sequence"; "Tuple"; "List"; "Union";
   "reduce"; "partial"; "operator";
   "VariableInterface"; "get_tracectx";
   "ProxyInterface"; "NumberProxyInterface"; "TensorProxyInterface";
   "baseutils"; "langctx_for"; "get_langctx"; "devices"; "dtypes";
   "Variable"; "variableify"; "unvariableify"; "Proxy"; "NumberProxy";
   "pyval"; "ComplexProxy"; "IntegerProxy"; "FloatProxy"; "TensorProxy";
   "_cls_to_number_proxy_map"; "numberproxy"; "is_proxyable"; "proxy"].

(** Reading a name that is not local to a function: the module's binding,
    or [NameError] (no builtin is called [langctx]). *)
Definition load_global (name : string) : M obj :=
  if mem_string name module_globals then ret (OGlobal name)
  else throw NameError.

Definition is_None (o : obj) : bool :=
  match o with
  | ONone => true
  | _ => false
  end.

(** [raise o] for an object that is neither an exception instance nor an
    exception class: the [raise] statement itself fails with [TypeError].  No
    object of the model is an exception. *)
Definition raise_object {A : Type} (o : obj) : M A := throw TypeError.

(** ** class Variable, [variableify], [unvariableify] *)

(** [Variable(p)]: [__init__] stores [p] as [self.proxy]. *)
Definition new_Variable (p : obj) : obj := OVariable p.

(** The attribute [name] of an object: the property that [Proxy] defines. *)
Definition getattr_name (o : obj) : Res string :=
  match o with
  | OProxy p => Ok (p_name p)
  | ONumberProxy p => Ok (np_name p)
  | OTensorProxy p => Ok (tp_name p)
  | _ => Raise AttributeError
  end.

(** [hash(s)] for a string. *)
Definition hash_str (s : string) : Z := native_hash (OStr s).

(** Variable.__hash__: [hash(self.proxy.name)] *)
Definition Variable___hash__ (self : obj) : Res Z :=
  match self with
  | OVariable proxy =>
      match getattr_name proxy with
      | Ok name => Ok (hash_str name)
      | Raise e => Raise e
      end
  | _ => Raise AttributeError
  end.

(** Variable.__eq__ *)
Definition Variable___eq__ (self other : obj) : Res obj :=
  if isinstance other c_Variable then
    match self, other with
    | OVariable p, OVariable q =>
        match getattr_name p, getattr_name q with
        | Ok n, Ok m => Ok (ONum (Bool (String.eqb n m)))
        | Raise e, _ => Raise e
        | _, Raise e => Raise e
        end
    | _, _ => Raise AttributeError
    end
  else Ok (ONum (Bool false)).

Definition variableify (x : obj) : obj :=
  if isinstance x c_ProxyInterface then new_Variable x else x.

Definition unvariableify (x : obj) : obj :=
  if isinstance x c_Variable then
    match x with
    | OVariable proxy => proxy
    | _ => x
    end
  else x.

(** ** class Proxy *)

(** Proxy.__init__: the value it stores in [self._name]. *)
Definition Proxy___init__ (name : option string) : M string :=
  trace <- get_tracectx ;;
  match name with
  | None =>
      let (name, trace') := make_name trace in
      set_tracectx trace' ;;
      ret name
  | Some name =>
      trace' <- lift (add_name name trace) ;;
      set_tracectx trace' ;;
      ret name
  end.

(** The call [Proxy(name=name)]. *)
Definition new_Proxy (name : option string) : M Proxy :=
  name <- Proxy___init__ name ;;
  ret (mkProxy name).

(** Proxy.replace_name: [self.__class__(name=name)], for an instance of
    [Proxy] itself. *)
Definition Proxy_replace_name (self : Proxy) (name : string) : M obj :=
  p <- new_Proxy (Some name) ;;
  ret (OProxy p).

(** ** class NumberProxy *)

(** NumberProxy.__init__, on the object that [__new__] made: [c] is its
    class and [numeral] the numeral stored in it. *)
Definition NumberProxy___init__ (c : number_proxy_class)
    (numeral : option number)
    (name : option string) (value : option number) (python_type : cls)
  : M NumberProxy :=
  name <- Proxy___init__ name ;;
  ret (mkNumberProxy c name value python_type numeral).

(** NumberProxy.__hash__: [hash(self.value)].  The value is [None] or a
    native number, whose hash is the builtin one. *)
Definition NumberProxy___hash__ (self : obj) : Res Z :=
  match self with
  | ONumberProxy p => Ok (native_hash (obj_of_value (np_value p)))
  | _ => Raise AttributeError
  end.

Definition known_value (self : NumberProxy) : bool :=
  match np_value self with
  | None => false
  | Some _ => true
  end.

(** [pyval] *)
Definition pyval (x : obj) : Res obj :=
  match check_type x [c_NumberProxy; c_Number] with
  | Raise e => Raise e
  | Ok _ =>
      if isinstance x c_NumberProxy then
        match x with
        | ONumberProxy p => Ok (obj_of_value (np_value p))
        | _ => Raise AttributeError
        end
      else Ok x
  end.

(** ** The constructors of the three variants *)

(** ComplexProxy.__new__: the numeral of the new object. *)
Definition ComplexProxy___new__ (value : option number) : Res number :=
  let value :=
    match value with
    | None => Complex float_nan float_nan
    | Some v => v
    end in
  complex_new value.

(** The call [ComplexProxy(name=name, value=value)]. *)
Definition new_ComplexProxy (name : option string) (value : option number)
  : M NumberProxy :=
  numeral <- lift (ComplexProxy___new__ value) ;;
  NumberProxy___init__ k_ComplexProxy (Some numeral) name value c_complex.

(** IntegerProxy.__new__ *)
Definition IntegerProxy___new__ (value : option number) : Res number :=
  let value :=
    match value with
    | None => Int (-9999)
    | Some v => v
    end in
  int_new value.

(** The call [IntegerProxy(name=name, value=value)]. *)
Definition new_IntegerProxy (name : option string) (value : option number)
  : M NumberProxy :=
  numeral <- lift (IntegerProxy___new__ value) ;;
  let python_type :=
    if isinstance (obj_of_value value) c_bool then c_bool else c_int in
  NumberProxy___init__ k_IntegerProxy (Some numeral) name value python_type.

(** FloatProxy.__new__ *)
Definition FloatProxy___new__ (value : option number) : Res number :=
  let value :=
    match value with
    | None => Float float_nan
    | Some v => v
    end in
  float_new value.

(** The call [FloatProxy(name=name, value=value)]. *)
Definition new_FloatProxy (name : option string) (value : option number)
  : M NumberProxy :=
  numeral <- lift (FloatProxy___new__ value) ;;
  NumberProxy___init__ k_FloatProxy (Some numeral) name value c_float.

(** The call [NumberProxy(name=name, value=value, python_type=python_type)]
    on the base class. *)
Definition new_NumberProxy (name : option string) (value : option number)
    (python_type : cls) : M NumberProxy :=
  NumberProxy___init__ k_NumberProxy None name value python_type.

(** ** [replace_name] *)

(** NumberProxy.replace_name:
    [self.__class__(name=name, value=self.value, python_type=self.python_type)].
    The constructors of the variants take no [python_type]. *)
Definition NumberProxy_replace_name (self : NumberProxy) (name : string)
  : M obj :=
  match np_class self with
  | k_NumberProxy =>
      p <- new_NumberProxy (Some name) (np_value self) (np_python_type self) ;;
      ret (ONumberProxy p)
  | _ => throw TypeError
  end.

Definition ComplexProxy_replace_name (self : NumberProxy) (name : string)
  : M obj :=
  p <- new_ComplexProxy (Some name) (np_value self) ;;
  ret (ONumberProxy p).

Definition IntegerProxy_replace_name (self : NumberProxy) (name : string)
  : M obj :=
  p <- new_IntegerProxy (Some name) (np_value self) ;;
  ret (ONumberProxy p).

Definition FloatProxy_replace_name (self : NumberProxy) (name : string)
  : M obj :=
  p <- new_FloatProxy (Some name) (np_value self) ;;
  ret (ONumberProxy p).

(** ** Operators of the number proxies *)

(** The two native expressions that the operator methods evaluate when no
    language context is active: [pyval(x) op pyval(y)], and
    [pyval(x).__d__(pyval(y))], whose method lookup precedes the evaluation
    of the argument. *)
Definition native_operator (op : binop) (x y : obj) : M obj :=
  a <- lift (pyval x) ;;
  b <- lift (pyval y) ;;
  lift (py_operator op a b).

Definition native_method (d : dunder) (x y : obj) : M obj :=
  a <- lift (pyval x) ;;
  method <- lift (getattr_dunder a d) ;;
  b <- lift (pyval y) ;;
  lift (method b).

(** The binary arithmetic and shift methods of ComplexProxy; every one
    starts with [langctx = get_langctx()]. *)
Definition ComplexProxy_binary (d : dunder) (self other : obj) : M obj :=
  langctx <- get_langctx ;;
  match d, langctx with
  | __add__, None => native_operator Add self other
  | __add__, Some langctx => call_ctx (lc_add langctx) self other
  | __radd__, None => native_operator Add other self
  | __radd__, Some langctx => call_ctx (lc_add langctx) other self
  | __divmod__, None => native_method __divmod__ self other
  | __divmod__, Some langctx => call_ctx (lc_divmod langctx) self other
  | __rdivmod__, None => native_method __rdivmod__ self other
  | __rdivmod__, Some langctx => call_ctx (lc_divmod langctx) other self
  | __floordiv__, None => native_method __floordiv__ self other
  | __floordiv__, Some langctx => call_ctx (lc_floor_divide langctx) self other
  | __rfloordiv__, None => native_method __rfloordiv__ self other
  | __rfloordiv__, Some langctx => call_ctx (lc_floor_divide langctx) other self
  | __mod__, None => native_method __mod__ self other
  | __mod__, Some langctx => call_ctx (lc_mod langctx) self other
  | __rmod__, None => native_method __rmod__ self other
  | __rmod__, Some langctx => call_ctx (lc_mod langctx) other self
  | __mul__, None => native_operator Mul self other
  | __mul__, Some langctx => call_ctx (lc_mul langctx) self other
  | __rmul__, None => native_operator Mul other self
  | __rmul__, Some langctx => call_ctx (lc_mul langctx) other self
  | __pow__, None => native_method __pow__ self other
  | __pow__, Some langctx => call_ctx (lc_pow langctx) self other
  | __rpow__, None => native_method __rpow__ self other
  | __rpow__, Some langctx => call_ctx (lc_pow langctx) other self
  | __sub__, None => native_method __sub__ self other
  | __sub__, Some langctx => call_ctx (lc_sub langctx) self other
  | __rsub__, None => native_method __rsub__ self other
  | __rsub__, Some langctx => call_ctx (lc_sub langctx) other self
  | __truediv__, None => native_method __truediv__ self other
  | __truediv__, Some langctx => call_ctx (lc_true_divide langctx) self other
  | __rtruediv__, None => native_method __rtruediv__ self other
  | __rtruediv__, Some langctx => call_ctx (lc_true_divide langctx) other self
  | __lshift__, None => native_method __lshift__ self other
  | __lshift__, Some langctx => call_ctx (lc_lshift langctx) self other
  | __rlshift__, None => native_method __rlshift__ self other
  | __rlshift__, Some langctx => call_ctx (lc_lshift langctx) other self
  | __rshift__, None => native_method __rshift__ self other
  | __rshift__, Some langctx => call_ctx (lc_rshift langctx) self other
  | __rrshift__, None => native_method __rrshift__ self other
  | __rrshift__, Some langctx => call_ctx (lc_rshift langctx) other self
  end.

(** The same methods of IntegerProxy. *)
Definition IntegerProxy_binary (d : dunder) (self other : obj) : M obj :=
  langctx <- get_langctx ;;
  match d, langctx with
  | __add__, None => native_operator Add self other
  | __add__, Some langctx => call_ctx (lc_add langctx) self other
  | __radd__, None => native_operator Add other self
  | __radd__, Some langctx => call_ctx (lc_add langctx) other self
  | __divmod__, None => native_method __divmod__ self other
  | __divmod__, Some langctx => call_ctx (lc_divmod langctx) self other
  | __rdivmod__, None => native_method __rdivmod__ self other
  | __rdivmod__, Some langctx => call_ctx (lc_divmod langctx) other self
  | __floordiv__, None => native_method __floordiv__ self other
  | __floordiv__, Some langctx => call_ctx (lc_floor_divide langctx) self other
  | __rfloordiv__, None => native_method __rfloordiv__ self other
  | __rfloordiv__, Some langctx => call_ctx (lc_floor_divide langctx) other self
  | __mod__, None => native_method __mod__ self other
  | __mod__, Some langctx => call_ctx (lc_mod langctx) self other
  | __rmod__, None => native_method __rmod__ self other
  | __rmod__, Some langctx => call_ctx (lc_mod langctx) other self
  | __mul__, None => native_operator Mul self other
  | __mul__, Some langctx => call_ctx (lc_mul langctx) self other
  | __rmul__, None => native_operator Mul other self
  | __rmul__, Some langctx => call_ctx (lc_mul langctx) other self
  | __pow__, None => native_method __pow__ self other
  | __pow__, Some langctx => call_ctx (lc_pow langctx) self other
  | __rpow__, None => native_method __rpow__ self other
  | __rpow__, Some langctx => call_ctx (lc_pow langctx) other self
  | __sub__, None => native_method __sub__ self other
  | __sub__, Some langctx => call_ctx (lc_sub langctx) self other
  | __rsub__, None => native_method __rsub__ self other
  | __rsub__, Some langctx => call_ctx (lc_sub langctx) other self
  | __truediv__, None => native_method __truediv__ self other
  | __truediv__, Some langctx => call_ctx (lc_true_divide langctx) self other
  | __rtruediv__, None => native_method __rtruediv__ self other
  | __rtruediv__, Some langctx => call_ctx (lc_true_divide langctx) other self
  | __lshift__, None => native_method __lshift__ self other
  | __lshift__, Some langctx => call_ctx (lc_lshift langctx) self other
  | __rlshift__, None => native_method __rlshift__ self other
  | __rlshift__, Some langctx => call_ctx (lc_lshift langctx) other self
  | __rshift__, None => native_method __rshift__ self other
  | __rshift__, Some langctx => call_ctx (lc_rshift langctx) self other
  | __rrshift__, None => native_method __rrshift__ self other
  | __rrshift__, Some langctx => call_ctx (lc_rshift langctx) other self
  end.

(** The same methods of FloatProxy. *)
Definition FloatProxy_binary (d : dunder) (self other : obj) : M obj :=
  langctx <- get_langctx ;;
  match d, langctx with
  | __add__, None => native_operator Add self other
  | __add__, Some langctx => call_ctx (lc_add langctx) self other
  | __radd__, None => native_operator Add other self
  | __radd__, Some langctx => call_ctx (lc_add langctx) other self
  | __divmod__, None => native_method __divmod__ self other
  | __divmod__, Some langctx => call_ctx (lc_divmod langctx) self other
  | __rdivmod__, None => native_method __rdivmod__ self other
  | __rdivmod__, Some langctx => call_ctx (lc_divmod langctx) other self
  | __floordiv__, None => native_method __floordiv__ self other
  | __floordiv__, Some langctx => call_ctx (lc_floor_divide langctx) self other
  | __rfloordiv__, None => native_method __rfloordiv__ self other
  | __rfloordiv__, Some langctx => call_ctx (lc_floor_divide langctx) other self
  | __mod__, None => native_method __mod__ self other
  | __mod__, Some langctx => call_ctx (lc_mod langctx) self other
  | __rmod__, None => native_method __rmod__ self other
  | __rmod__, Some langctx => call_ctx (lc_mod langctx) other self
  | __mul__, None => native_operator Mul self other
  | __mul__, Some langctx => call_ctx (lc_mul langctx) self other
  | __rmul__, None => native_operator Mul other self
  | __rmul__, Some langctx => call_ctx (lc_mul langctx) other self
  | __pow__, None => native_method __pow__ self other
  | __pow__, Some langctx => call_ctx (lc_pow langctx) self other
  | __rpow__, None => native_method __rpow__ self other
  | __rpow__, Some langctx => call_ctx (lc_pow langctx) other self
  | __sub__, None => native_method __sub__ self other
  | __sub__, Some langctx => call_ctx (lc_sub langctx) self other
  | __rsub__, None => native_method __rsub__ self other
  | __rsub__, Some langctx => call_ctx (lc_sub langctx) other self
  | __truediv__, None => native_method __truediv__ self other
  | __truediv__, Some langctx => call_ctx (lc_true_divide langctx) self other
  | __rtruediv__, None => native_method __rtruediv__ self other
  | __rtruediv__, Some langctx => call_ctx (lc_true_divide langctx) other self
  | __lshift__, None => native_method __lshift__ self other
  | __lshift__, Some langctx => call_ctx (lc_lshift langctx) self other
  | __rlshift__, None => native_method __rlshift__ self other
  | __rlshift__, Some langctx => call_ctx (lc_lshift langctx) other self
  | __rshift__, None => native_method __rshift__ self other
  | __rshift__, Some langctx => call_ctx (lc_rshift langctx) self other
  | __rrshift__, None => native_method __rrshift__ self other
  | __rrshift__, Some langctx => call_ctx (lc_rshift langctx) other self
  end.

(** The binary method [d] of a number proxy class; the base class defines
    none. *)
Definition binary_method (k : number_proxy_class) (d : dunder)
    (self other : obj) : M obj :=
  match k with
  | k_ComplexProxy => ComplexProxy_binary d self other
  | k_IntegerProxy => IntegerProxy_binary d self other
  | k_FloatProxy => FloatProxy_binary d self other
  | k_NumberProxy => throw AttributeError
  end.

(** Unary plus.  The three variants read [langctx] without binding it: the
    name is looked up among the module's globals. *)
Definition ComplexProxy___pos__ (self : obj) : M obj :=
  langctx <- load_global "langctx" ;;
  if is_None langctx then
    v <- lift (pyval self) ;;
    lift (value_pos v)
  else ret self.

Definition IntegerProxy___pos__ (self : obj) : M obj :=
  langctx <- load_global "langctx" ;;
  if is_None langctx then
    v <- lift (pyval self) ;;
    lift (value_pos v)
  else ret self.

Definition FloatProxy___pos__ (self : obj) : M obj :=
  langctx <- load_global "langctx" ;;
  if is_None langctx then
    v <- lift (pyval self) ;;
    lift (value_pos v)
  else ret self.

Definition TensorProxy___pos__ (self : obj) : M obj := ret self.

(** The method [__pos__] of a number proxy class; the base class defines
    none. *)
Definition pos_method (k : number_proxy_class) (self : obj) : M obj :=
  match k with
  | k_ComplexProxy => ComplexProxy___pos__ self
  | k_IntegerProxy => IntegerProxy___pos__ self
  | k_FloatProxy => FloatProxy___pos__ self
  | k_NumberProxy => throw AttributeError
  end.

(** The dtype conversion methods. *)
Definition ComplexProxy___complex__ (self : obj) : M obj := raise_object self.
Definition ComplexProxy___float__ (self : obj) : M obj :=
  raise_object ONotImplemented.
Definition ComplexProxy___int__ (self : obj) : M obj :=
  raise_object ONotImplemented.

Definition IntegerProxy___complex__ (self : obj) : M obj :=
  raise_object ONotImplemented.
Definition IntegerProxy___float__ (self : obj) : M obj :=
  raise_object ONotImplemented.
Definition IntegerProxy___int__ (self : obj) : M obj := ret self.

Definition FloatProxy___complex__ (self : obj) : M obj :=
  raise_object ONotImplemented.
Definition FloatProxy___float__ (self : obj) : M obj := ret self.
Definition FloatProxy___int__ (self : obj) : M obj :=
  raise_object ONotImplemented.

Definition TensorProxy___complex__ (self : obj) : M obj :=
  raise_object ONotImplemented.
Definition TensorProxy___float__ (self : obj) : M obj :=
  raise_object ONotImplemented.
Definition TensorProxy___int__ (self : obj) : M obj :=
  raise_object ONotImplemented.

(** ** The reading of the dispatch rule *)

(** The method of a language context that is named after an operation. *)
Definition context_method (ctx : LangCtx) (op : binop) : ctx_method :=
  match op with
  | Add => lc_add ctx
  | Sub => lc_sub ctx
  | Mul => lc_mul ctx
  | TrueDiv => lc_true_divide ctx
  | FloorDiv => lc_floor_divide ctx
  | Mod => lc_mod ctx
  | DivMod => lc_divmod ctx
  | Pow => lc_pow ctx
  | LShift => lc_lshift ctx
  | RShift => lc_rshift ctx
  end.

(** The native operation that corresponds to the method [d], on the value
    [a] of the proxy and the value [b] of the other operand: [a op b], and
    [b op a] for a reflected method. *)
Definition native_operation (d : dunder) (a b : number) : Res obj :=
  if reflected d then py_operator (op_of d) (ONum b) (ONum a)
  else py_operator (op_of d) (ONum a) (ONum b).

(** The methods that are written with the operator, [pyval(self) + ...];
    the others call the method of the same name on [pyval(self)]. *)
Definition operator_form (d : dunder) : bool :=
  match d with
  | __add__ | __radd__ | __mul__ | __rmul__ => true
  | _ => false
  end.

(** The native type of [a] implements [d] for an operand [b]: it has the
    method and accepts the type of [b]. *)
Definition applicable (d : dunder) (a b : number) : bool :=
  operator_form d || (has_method a d && (rank b <=? rank a)%nat).

(** ** class TensorProxy *)

(** Modelled from the spec: [dtypes.is_numbertype(x)] detects a value that
    denotes a Python number type, which [dtypes.numbertype_to_dtype]
    converts to its dtype. *)
Definition is_numbertype (x : obj) : bool :=
  match x with
  | OClass c_bool | OClass c_int | OClass c_float | OClass c_complex => true
  | _ => false
  end.

Definition convert_numbertype (x : obj) : obj :=
  match x with
  | OClass c => if is_numbertype x then ODType (numbertype_to_dtype c) else x
  | _ => x
  end.

(** [tuple(shape)] keeps the entries. *)
Definition py_tuple (shape : list Z) : list Z := shape.

(** [reduce(operator.mul, shape, 1)] *)
Definition reduce_mul (shape : list Z) : Z := fold_left Z.mul shape 1.

(** [len(shape)] *)
Definition len (shape : list Z) : Z := Z.of_nat (List.length shape).

(** [x if x is not None else y] *)
Definition if_not_None (x y : obj) : obj := if is_None x then y else x.

(** TensorProxy.__init__.  [like], [device] and [dtype] are objects, [ONone]
    when the argument is left out; [shape] is a sequence of integers or is
    left out. *)
Definition TensorProxy___init__ (name : option string) (like : obj)
    (shape : option (list Z)) (device dtype : obj) : M TensorProxy :=
  name <- Proxy___init__ name ;;
  from_like <-
    (if is_None like then ret (None, ONone, ONone)
     else
       lift (check_type like [c_TensorProxy]) ;;
       match like with
       | OTensorProxy l =>
           ret (Some (py_tuple (tp_shape l)), ODevice (tp_device l),
                ODType (tp_true_dtype l))
       | _ => throw AttributeError
       end) ;;
  let '(self_shape, self_device, self_dtype) := from_like in
  let self_shape :=
    match shape with
    | Some s => Some s
    | None => self_shape
    end in
  let self_device := if_not_None device self_device in
  let self_dtype := if_not_None dtype self_dtype in
  let self_dtype := convert_numbertype self_dtype in
  match self_shape with
  | None => throw TypeError
  | Some self_shape =>
      let numel := reduce_mul self_shape in
      let ndim := len self_shape in
      lift (check_valid_shape self_shape) ;;
      lift (check_type self_device [c_Device]) ;;
      lift (check_type self_dtype [c_dtype]) ;;
      match self_device, self_dtype with
      | ODevice device, ODType true_dtype =>
          ret (mkTensorProxy name self_shape device
                 (to_strong_dtype true_dtype) true_dtype numel ndim)
      | _, _ => throw CheckError
      end
  end.

(** TensorProxy.replace_name: [TensorProxy(name, like=self)] *)
Definition TensorProxy_replace_name (self : TensorProxy) (name : string)
  : M obj :=
  t <- TensorProxy___init__ (Some name) (OTensorProxy self) None ONone ONone ;;
  ret (OTensorProxy t).

(** The method [replace_name] that an object's class resolves to. *)
Definition replace_name (self : obj) (name : string) : M obj :=
  match self with
  | OProxy p => Proxy_replace_name p name
  | ONumberProxy p =>
      match np_class p with
      | k_ComplexProxy => ComplexProxy_replace_name p name
      | k_IntegerProxy => IntegerProxy_replace_name p name
      | k_FloatProxy => FloatProxy_replace_name p name
      | k_NumberProxy => NumberProxy_replace_name p name
      end
  | OTensorProxy t => TensorProxy_replace_name t name
  | _ => throw AttributeError
  end.

(** ** Helpers for creating proxies *)

Definition _cls_to_number_proxy_map : list (cls * cls) :=
  [(c_float, c_FloatProxy); (c_int, c_IntegerProxy); (c_bool, c_IntegerProxy)].

(** [d[k]] on a dict: the value stored under the key, or [KeyError]. *)
Fixpoint dict_getitem (d : list (cls * cls)) (k : cls) : Res cls :=
  match d with
  | [] => Raise KeyError
  | (k', v) :: rest => if cls_eqb k k' then Ok v else dict_getitem rest k
  end.

(** The call [pcls(value=value)] of a class object. *)
Definition call_proxy_class (pcls : cls) (value : option number)
  : M NumberProxy :=
  match pcls with
  | c_ComplexProxy => new_ComplexProxy None value
  | c_IntegerProxy => new_IntegerProxy None value
  | c_FloatProxy => new_FloatProxy None value
  | _ => throw TypeError
  end.

Definition numberproxy (cls : cls) (value : option number) : M NumberProxy :=
  pcls <- lift (dict_getitem _cls_to_number_proxy_map cls) ;;
  call_proxy_class pcls value.

(** ** [hash] *)

(** The names bound in the body of a class: the module's own classes, the
    builtin ones as far as equality and hashing go, and the classes of the
    rest of the package. *)
Definition class_dict (c : cls) : list string :=
  match c with
  | c_Variable | c_Proxy | c_NumberProxy | c_ComplexProxy | c_IntegerProxy
  | c_FloatProxy | c_TensorProxy => class_body c
  | c_object | c_int | c_float | c_complex | c_str | c_tuple =>
      ["__eq__"; "__hash__"]
  | c_bool | c_NoneType | c_NotImplementedType | c_type | c_Number => []
  | _ => external_body c
  end.

(** The entry [__hash__] of a class's dictionary: a function when the body
    defines [__hash__]; [None] when the body defines [__eq__] without
    [__hash__] (Python then sets [__hash__ = None]), and in [numbers.Number],
    which sets it so; no entry otherwise. *)
Inductive hash_entry : Type := HashFunction | HashNone.

Definition own_hash (c : cls) : option hash_entry :=
  if cls_eqb c c_Number then Some HashNone
  else if mem_string "__hash__" (class_dict c) then Some HashFunction
  else if mem_string "__eq__" (class_dict c) then Some HashNone
  else None.

(** The first entry along a method resolution order. *)
Fixpoint lookup_hash (order : list cls) : option (cls * hash_entry) :=
  match order with
  | [] => None
  | c :: rest =>
      match own_hash c with
      | Some e => Some (c, e)
      | None => lookup_hash rest
      end
  end.

(** [hash(o)]: the [__hash__] that the class of [o] resolves to;
    [TypeError] (unhashable type) when the entry is [None]. *)
Definition py_hash (o : obj) : Res Z :=
  match lookup_hash (mro (type_of o)) with
  | Some (c_NumberProxy, HashFunction) => NumberProxy___hash__ o
  | Some (c_Variable, HashFunction) => Variable___hash__ o
  | Some (_, HashFunction) => Ok (native_hash o)
  | _ => Raise TypeError
  end.

(** The interface classes from which [Proxy] derives are plain when their
    bodies define neither [__eq__] nor [__hash__]. *)
Definition plain_interfaces : Prop :=
  own_hash c_VariableInterface = None /\ own_hash c_ProxyInterface = None.

(** ** Constructed proxies *)

(** A number proxy that a call of one of the four classes returned. *)
Definition constructed_number (p : NumberProxy) : Prop :=
  exists (name : option string) (value : option number) (python_type : cls)
         (w w' : World),
    new_NumberProxy name value python_type w = (Ok p, w')
    \/ new_ComplexProxy name value w = (Ok p, w')
    \/ new_IntegerProxy name value w = (Ok p, w')
    \/ new_FloatProxy name value w = (Ok p, w').

(** A tensor proxy that a call of [TensorProxy] returned. *)
Definition constructed_tensor (t : TensorProxy) : Prop :=
  exists (name : option string) (like : obj) (shape : option (list Z))
         (device dtype : obj) (w w' : World),
    TensorProxy___init__ name like shape device dtype w = (Ok t, w').

(** The product of the entries of a shape. *)
Definition product (shape : list Z) : Z := fold_right Z.mul 1 shape.

(** ** Objects to evaluate on

    The IntegerProxy objects that hold 3 and 4, two
    FloatProxy objects of the same name and different values, the tensor
    proxy of shape (2,3) on device 0 whose dtype was given as the number type
    [float], and a world with an active trace and no language context. *)
Definition three : NumberProxy :=
  mkNumberProxy k_IntegerProxy "t0" (Some (Int 3)) c_int (Some (Int 3)).

Definition four : NumberProxy :=
  mkNumberProxy k_IntegerProxy "t1" (Some (Int 4)) c_int (Some (Int 4)).

Definition one_half : pyfloat := S754_finite false 4503599627370496 (-53).

Definition float_x : NumberProxy :=
  mkNumberProxy k_FloatProxy "x" (Some (Float one_half)) c_float
    (Some (Float one_half)).

Definition float_x' : NumberProxy :=
  mkNumberProxy k_FloatProxy "x" None c_float (Some (Float float_nan)).

Definition tensor_2_3 : TensorProxy :=
  mkTensorProxy "t0" [2; 3] (device_ 0) (dtype_ 2) (dtype_ 102) 6 2.

Definition empty_trace : TraceCtx := mkTraceCtx [].

Definition idle_world : World := mkWorld (Some empty_trace) None.

Definition five : NumberProxy :=
  mkNumberProxy k_IntegerProxy "a" (Some (Int 5)) c_int (Some (Int 5)).

Definition complex_i : NumberProxy :=
  mkNumberProxy k_ComplexProxy "z" (Some (Complex (S754_zero false) one_half))
    c_complex (Some (Complex (S754_zero false) one_half)).

(** A language context that records: each method returns its own name
    paired with its two operands in the order it received them. *)
Definition recorded (name : string) : ctx_method :=
  fun a b trace => (Ok (OPair (OStr name) (OPair a b)), trace).

Definition recording_ctx : LangCtx :=
  {| lc_add := recorded "add";
     lc_sub := recorded "sub";
     lc_mul := recorded "mul";
     lc_true_divide := recorded "true_divide";
     lc_floor_divide := recorded "floor_divide";
     lc_mod := recorded "mod";
     lc_divmod := recorded "divmod";
     lc_pow := recorded "pow";
     lc_lshift := recorded "lshift";
     lc_rshift := recorded "rshift" |}.

Definition tracing_world : World := mkWorld (Some empty_trace) (Some recording_ctx).

(** ** The other methods of a language context *)

(** A method of a language context with one operand, and one called with
    a list of arguments. *)
Definition ctx_unary : Type :=
  obj -> option TraceCtx -> Res obj * option TraceCtx.

Definition ctx_nary : Type :=
  list obj -> option TraceCtx -> Res obj * option TraceCtx.

(** The methods of a language context that [LangCtx] does not list: the
    unary ones, matrix multiplication, the comparisons and logical
    operations, indexing, [size], and [method_lookup], which returns the
    method of a given name or [None]. *)
Record LangCtxMethods : Type := mkLangCtxMethods {
  lc_abs : ctx_unary;
  lc_ceil : ctx_unary;
  lc_floor : ctx_unary;
  lc_invert : ctx_unary;
  lc_neg : ctx_unary;
  lc_round : ctx_unary;
  lc_trunc : ctx_unary;
  lc_size : ctx_unary;
  lc_matmul : ctx_method;
  lc_eq : ctx_method;
  lc_ne : ctx_method;
  lc_lt : ctx_method;
  lc_le : ctx_method;
  lc_gt : ctx_method;
  lc_ge : ctx_method;
  lc_logical_and : ctx_method;
  lc_logical_or : ctx_method;
  lc_logical_xor : ctx_method;
  lc_get_item : ctx_method;
  lc_method_lookup : string -> option ctx_nary
}.

(** The methods of each language context object, and the modulus of a
    complex number, which the runtime computes. *)
Variable methods_of : LangCtx -> LangCtxMethods.
Variable complex_abs : pyfloat -> pyfloat -> Res pyfloat.

(** The call [langctx.method(a)]. *)
Definition call_ctx1 (method : ctx_unary) (a : obj) : M obj :=
  fun w =>
    let (r, trace') := method a (tracectx w) in
    (r, mkWorld trace' (langctx w)).

(** The call of a looked-up method on a list of arguments. *)
Definition call_ctxn (method : ctx_nary) (args : list obj) : M obj :=
  fun w =>
    let (r, trace') := method args (tracectx w) in
    (r, mkWorld trace' (langctx w)).

(** ** Unary methods of the native numeric types *)

Inductive unary_dunder : Type :=
| __abs__ | __ceil__ | __floor__ | __invert__ | __neg__ | __round__
| __trunc__.

(** The integer that a finite float [(-1)^s * m * 2^e] rounds to: towards
    minus infinity, towards plus infinity, and to the nearest integer with
    ties to the even one. *)
Definition finite_floor (s : bool) (m : positive) (e : Z) : Z :=
  Z.shiftl (cond_Zopp s (Zpos m)) e.

Definition finite_ceil (s : bool) (m : positive) (e : Z) : Z :=
  - Z.shiftl (- cond_Zopp s (Zpos m)) e.

Definition finite_round (s : bool) (m : positive) (e : Z) : Z :=
  let n := cond_Zopp s (Zpos m) in
  if 0 <=? e then Z.shiftl n e
  else
    let q := Z.shiftl n e in
    let r := n - q * 2 ^ (- e) in
    match 2 * r ?= 2 ^ (- e) with
    | Lt => q
    | Gt => q + 1
    | Eq => if Z.even q then q else q + 1
    end.

(** A float to an integer by [to_Z] on the finite ones; zero gives 0, an
    infinity and a NaN have no integer. *)
Definition float_to_int (to_Z : bool -> positive -> Z -> Z) (f : pyfloat)
  : Res obj :=
  match f with
  | S754_zero _ => Ok (ONum (Int 0))
  | S754_infinity _ => Raise OverflowError
  | S754_nan => Raise ValueError
  | S754_finite s m e => Ok (ONum (Int (to_Z s m e)))
  end.

Definition int_unary (u : unary_dunder) (z : Z) : Z :=
  match u with
  | __abs__ => Z.abs z
  | __invert__ => Z.lnot z
  | __neg__ => - z
  | __ceil__ | __floor__ | __round__ | __trunc__ => z
  end.

(** [recv.__u__()]: [int] and [bool] have the seven methods, [float] has no
    [__invert__], [complex] has [__abs__] and [__neg__] only, and [None]
    has none. *)
Definition value_unary (u : unary_dunder) (recv : obj) : Res obj :=
  match recv with
  | ONum (Int z) => Ok (ONum (Int (int_unary u z)))
  | ONum (Bool b) => Ok (ONum (Int (int_unary u (Z.b2z b))))
  | ONum (Float f) =>
      match u with
      | __abs__ => Ok (ONum (Float (SFabs f)))
      | __neg__ => Ok (ONum (Float (SFopp f)))
      | __ceil__ => float_to_int finite_ceil f
      | __floor__ => float_to_int finite_floor f
      | __round__ => float_to_int finite_round f
      | __trunc__ =>
          float_to_int (fun s m e => cond_Zopp s (Z.shiftl (Zpos m) e)) f
      | __invert__ => Raise AttributeError
      end
  | ONum (Complex re im) =>
      match u with
      | __abs__ =>
          match complex_abs re im with
          | Ok f => Ok (ONum (Float f))
          | Raise e => Raise e
          end
      | __neg__ => Ok (ONum (Complex (SFopp re) (SFopp im)))
      | _ => Raise AttributeError
      end
  | _ => Raise AttributeError
  end.

(** ** Unary operators and matrix multiplication of the number proxies *)

(** [pyval(self).__u__()] *)
Definition native_unary (u : unary_dunder) (x : obj) : M obj :=
  a <- lift (pyval x) ;;
  lift (value_unary u a).

Definition ComplexProxy_unary (u : unary_dunder) (self : obj) : M obj :=
  langctx <- get_langctx ;;
  match u, langctx with
  | __abs__, None => native_unary __abs__ self
  | __abs__, Some langctx => call_ctx1 (lc_abs (methods_of langctx)) self
  | __ceil__, None => native_unary __ceil__ self
  | __ceil__, Some langctx => call_ctx1 (lc_ceil (methods_of langctx)) self
  | __floor__, None => native_unary __floor__ self
  | __floor__, Some langctx => call_ctx1 (lc_floor (methods_of langctx)) self
  | __invert__, None => native_unary __invert__ self
  | __invert__, Some langctx => call_ctx1 (lc_invert (methods_of langctx)) self
  | __neg__, None => native_unary __neg__ self
  | __neg__, Some langctx => call_ctx1 (lc_neg (methods_of langctx)) self
  | __round__, None => native_unary __round__ self
  | __round__, Some langctx => call_ctx1 (lc_round (methods_of langctx)) self
  | __trunc__, None => native_unary __trunc__ self
  | __trunc__, Some langctx => call_ctx1 (lc_trunc (methods_of langctx)) self
  end.

Definition IntegerProxy_unary (u : unary_dunder) (self : obj) : M obj :=
  langctx <- get_langctx ;;
  match u, langctx with
  | __abs__, None => native_unary __abs__ self
  | __abs__, Some langctx => call_ctx1 (lc_abs (methods_of langctx)) self
  | __ceil__, None => native_unary __ceil__ self
  | __ceil__, Some langctx => call_ctx1 (lc_ceil (methods_of langctx)) self
  | __floor__, None => native_unary __floor__ self
  | __floor__, Some langctx => call_ctx1 (lc_floor (methods_of langctx)) self
  | __invert__, None => native_unary __invert__ self
  | __invert__, Some langctx => call_ctx1 (lc_invert (methods_of langctx)) self
  | __neg__, None => native_unary __neg__ self
  | __neg__, Some langctx => call_ctx1 (lc_neg (methods_of langctx)) self
  | __round__, None => native_unary __round__ self
  | __round__, Some langctx => call_ctx1 (lc_round (methods_of langctx)) self
  | __trunc__, None => native_unary __trunc__ self
  | __trunc__, Some langctx => call_ctx1 (lc_trunc (methods_of langctx)) self
  end.

Definition FloatProxy_unary (u : unary_dunder) (self : obj) : M obj :=
  langctx <- get_langctx ;;
  match u, langctx with
  | __abs__, None => native_unary __abs__ self
  | __abs__, Some langctx => call_ctx1 (lc_abs (methods_of langctx)) self
  | __ceil__, None => native_unary __ceil__ self
  | __ceil__, Some langctx => call_ctx1 (lc_ceil (methods_of langctx)) self
  | __floor__, None => native_unary __floor__ self
  | __floor__, Some langctx => call_ctx1 (lc_floor (methods_of langctx)) self
  | __invert__, None => native_unary __invert__ self
  | __invert__, Some langctx => call_ctx1 (lc_invert (methods_of langctx)) self
  | __neg__, None => native_unary __neg__ self
  | __neg__, Some langctx => call_ctx1 (lc_neg (methods_of langctx)) self
  | __round__, None => native_unary __round__ self
  | __round__, Some langctx => call_ctx1 (lc_round (methods_of langctx)) self
  | __trunc__, None => native_unary __trunc__ self
  | __trunc__, Some langctx => call_ctx1 (lc_trunc (methods_of langctx)) self
  end.

(** The unary method [u] of a number proxy class; the base class defines
    none. *)
Definition unary_method (k : number_proxy_class) (u : unary_dunder)
    (self : obj) : M obj :=
  match k with
  | k_ComplexProxy => ComplexProxy_unary u self
  | k_IntegerProxy => IntegerProxy_unary u self
  | k_FloatProxy => FloatProxy_unary u self
  | k_NumberProxy => throw AttributeError
  end.

(** Matrix multiplication: [raise NotImplemented] in every variant. *)
Definition ComplexProxy___matmul__ (self other : obj) : M obj :=
  raise_object ONotImplemented.
Definition ComplexProxy___rmatmul__ (self other : obj) : M obj :=
  raise_object ONotImplemented.

Definition IntegerProxy___matmul__ (self other : obj) : M obj :=
  raise_object ONotImplemented.
Definition IntegerProxy___rmatmul__ (self other : obj) : M obj :=
  raise_object ONotImplemented.

Definition FloatProxy___matmul__ (self other : obj) : M obj :=
  raise_object ONotImplemented.
Definition FloatProxy___rmatmul__ (self other : obj) : M obj :=
  raise_object ONotImplemented.

(** The method [__matmul__] ([__rmatmul__] when [r] is set) of a number
    proxy class. *)
Definition matmul_method (k : number_proxy_class) (r : bool)
    (self other : obj) : M obj :=
  match k, r with
  | k_ComplexProxy, false => ComplexProxy___matmul__ self other
  | k_ComplexProxy, true => ComplexProxy___rmatmul__ self other
  | k_IntegerProxy, false => IntegerProxy___matmul__ self other
  | k_IntegerProxy, true => IntegerProxy___rmatmul__ self other
  | k_FloatProxy, false => FloatProxy___matmul__ self other
  | k_FloatProxy, true => FloatProxy___rmatmul__ self other
  | k_NumberProxy, _ => throw AttributeError
  end.

(** The context method that is named after a unary method. *)
Definition context_unary (ctx : LangCtx) (u : unary_dunder) : ctx_unary :=
  match u with
  | __abs__ => lc_abs (methods_of ctx)
  | __ceil__ => lc_ceil (methods_of ctx)
  | __floor__ => lc_floor (methods_of ctx)
  | __invert__ => lc_invert (methods_of ctx)
  | __neg__ => lc_neg (methods_of ctx)
  | __round__ => lc_round (methods_of ctx)
  | __trunc__ => lc_trunc (methods_of ctx)
  end.

(** ** Operators and attributes of TensorProxy *)

(** The binary methods of TensorProxy: the arithmetic and shift ones, the
    comparisons, the logical ones and matrix multiplication. *)
Inductive tensor_dunder : Type :=
| t_arith (d : dunder)
| __eq__ | __ne__ | __ge__ | __gt__ | __le__ | __lt__
| __and__ | __rand__ | __or__ | __ror__ | __xor__ | __rxor__
| __matmul__ | __rmatmul__.

(** Every method is [langctx = get_langctx()] followed by the call of a
    method of [langctx]; on [None] the attribute lookup fails. *)
Definition TensorProxy_binary (d : tensor_dunder) (self other : obj) : M obj :=
  langctx <- get_langctx ;;
  match langctx with
  | None => throw AttributeError
  | Some langctx =>
      let more := methods_of langctx in
      match d with
      | t_arith __add__ => call_ctx (lc_add langctx) self other
      | t_arith __radd__ => call_ctx (lc_add langctx) other self
      | t_arith __divmod__ => call_ctx (lc_divmod langctx) self other
      | t_arith __rdivmod__ => call_ctx (lc_divmod langctx) other self
      | __eq__ => call_ctx (lc_eq more) self other
      | t_arith __floordiv__ => call_ctx (lc_floor_divide langctx) self other
      | t_arith __rfloordiv__ => call_ctx (lc_floor_divide langctx) other self
      | t_arith __mod__ => call_ctx (lc_mod langctx) self other
      | t_arith __rmod__ => call_ctx (lc_mod langctx) other self
      | t_arith __mul__ => call_ctx (lc_mul langctx) self other
      | t_arith __rmul__ => call_ctx (lc_mul langctx) other self
      | t_arith __pow__ => call_ctx (lc_pow langctx) self other
      | t_arith __rpow__ => call_ctx (lc_pow langctx) other self
      | t_arith __sub__ => call_ctx (lc_sub langctx) self other
      | t_arith __rsub__ => call_ctx (lc_sub langctx) other self
      | t_arith __truediv__ => call_ctx (lc_true_divide langctx) self other
      | t_arith __rtruediv__ => call_ctx (lc_true_divide langctx) other self
      | __and__ => call_ctx (lc_logical_and more) self other
      | __rand__ => call_ctx (lc_logical_and more) other self
      | __ge__ => call_ctx (lc_ge more) self other
      | __gt__ => call_ctx (lc_gt more) self other
      | __le__ => call_ctx (lc_le more) self other
      | __lt__ => call_ctx (lc_lt more) self other
      | __ne__ => call_ctx (lc_ne more) self other
      | __or__ => call_ctx (lc_logical_or more) self other
      | __ror__ => call_ctx (lc_logical_or more) other self
      | __xor__ => call_ctx (lc_logical_xor more) self other
      | __rxor__ => call_ctx (lc_logical_xor more) other self
      | t_arith __lshift__ => call_ctx (lc_lshift langctx) self other
      | t_arith __rlshift__ => call_ctx (lc_lshift langctx) other self
      | t_arith __rshift__ => call_ctx (lc_rshift langctx) self other
      | t_arith __rrshift__ => call_ctx (lc_rshift langctx) other self
      | __matmul__ => call_ctx (lc_matmul more) self other
      | __rmatmul__ => call_ctx (lc_matmul more) other self
      end
  end.

Definition TensorProxy_unary (u : unary_dunder) (self : obj) : M obj :=
  langctx <- get_langctx ;;
  match langctx with
  | None => throw AttributeError
  | Some langctx =>
      match u with
      | __abs__ => call_ctx1 (lc_abs (methods_of langctx)) self
      | __ceil__ => call_ctx1 (lc_ceil (methods_of langctx)) self
      | __floor__ => call_ctx1 (lc_floor (methods_of langctx)) self
      | __invert__ => call_ctx1 (lc_invert (methods_of langctx)) self
      | __neg__ => call_ctx1 (lc_neg (methods_of langctx)) self
      | __round__ => call_ctx1 (lc_round (methods_of langctx)) self
      | __trunc__ => call_ctx1 (lc_trunc (methods_of langctx)) self
      end
  end.

(** The property [size]. *)
Definition TensorProxy_size (self : obj) : M obj :=
  langctx <- get_langctx ;;
  match langctx with
  | None => throw AttributeError
  | Some langctx => call_ctx1 (lc_size (methods_of langctx)) self
  end.

Definition TensorProxy___getitem__ (self key : obj) : M obj :=
  ctx <- get_langctx ;;
  match ctx with
  | None => throw AttributeError
  | Some ctx => call_ctx (lc_get_item (methods_of ctx)) self key
  end.

(** Modelled from the spec: [baseutils.check(cond, msg, exception_type)]
    fails with the given exception when the condition does not hold. *)
Definition check (cond : bool) (exception_type : exn) : Res unit :=
  if cond then Ok tt else Raise exception_type.

(** [partial(method, self)]: the callable that passes [self] first. *)
Definition partial (method : ctx_nary) (self : obj) : ctx_nary :=
  fun args => method (self :: args).

(** TensorProxy.__getattr__, which Python calls for an attribute that the
    object does not have. *)
Definition TensorProxy___getattr__ (self : obj) (attr : string)
  : M ctx_nary :=
  langctx <- get_langctx ;;
  match langctx with
  | None => throw AttributeError
  | Some langctx =>
      let method := lc_method_lookup (methods_of langctx) attr in
      lift (check (match method with Some _ => true | None => false end)
              AttributeError) ;;
      match method with
      | Some method => ret (partial method self)
      | None => throw AttributeError
      end
  end.

(** The method of a language context that a binary method of TensorProxy
    is named after, and whether the method is a reflected one. *)
Definition tensor_context_method (ctx : LangCtx) (d : tensor_dunder)
  : ctx_method :=
  match d with
  | t_arith d => context_method ctx (op_of d)
  | __eq__ => lc_eq (methods_of ctx)
  | __ne__ => lc_ne (methods_of ctx)
  | __ge__ => lc_ge (methods_of ctx)
  | __gt__ => lc_gt (methods_of ctx)
  | __le__ => lc_le (methods_of ctx)
  | __lt__ => lc_lt (methods_of ctx)
  | __and__ | __rand__ => lc_logical_and (methods_of ctx)
  | __or__ | __ror__ => lc_logical_or (methods_of ctx)
  | __xor__ | __rxor__ => lc_logical_xor (methods_of ctx)
  | __matmul__ | __rmatmul__ => lc_matmul (methods_of ctx)
  end.

Definition tensor_reflected (d : tensor_dunder) : bool :=
  match d with
  | t_arith d => reflected d
  | __rand__ | __ror__ | __rxor__ | __rmatmul__ => true
  | _ => false
  end.

(** ** Constructions *)

(** The object [o] is what a call of one of the classes, with the name
    argument [name], returned in the world [w], leaving the world [w']. *)
Definition construction (name : option string) (w w' : World) (o : obj)
  : Prop :=
  (exists p, new_Proxy name w = (Ok p, w') /\ o = OProxy p)
  \/ (exists value python_type p,
        new_NumberProxy name value python_type w = (Ok p, w')
        /\ o = ONumberProxy p)
  \/ (exists value p,
        (new_ComplexProxy name value w = (Ok p, w')
         \/ new_IntegerProxy name value w = (Ok p, w')
         \/ new_FloatProxy name value w = (Ok p, w'))
        /\ o = ONumberProxy p)
  \/ (exists like shape device dtype t,
        TensorProxy___init__ name like shape device dtype w = (Ok t, w')
        /\ o = OTensorProxy t).

(** The world [w] with one more name registered in its trace [trace]. *)
Definition register (name : string) (trace : TraceCtx) (w : World) : World :=
  mkWorld (Some (mkTraceCtx (name :: names trace))) (langctx w).

(** The arguments that [TensorProxy.__init__] accepts when no [like] is
    given: a shape of non-negative extents, a device, and a dtype or a
    number type. *)
Definition valid_arguments (shape : option (list Z)) (device dtype : obj)
  : bool :=
  match shape with
  | Some s => forallb (fun l => 0 <=? l) s
  | None => false
  end
  && isinstance device c_Device
  && (isinstance dtype c_dtype || is_numbertype dtype).

(** ** More objects to evaluate on *)

(** The other methods of the recording context: each returns its name
    paired with its operand or operands, and [flatten] is the one method
    that the lookup knows. *)
Definition recorded1 (name : string) : ctx_unary :=
  fun a trace => (Ok (OPair (OStr name) a), trace).

Definition recordedn (name : string) : ctx_nary :=
  fun args trace =>
    (Ok (fold_right (fun a acc => OPair a acc) (OStr name) args), trace).

Definition recording_methods (ctx : LangCtx) : LangCtxMethods :=
  {| lc_abs := recorded1 "abs";
     lc_ceil := recorded1 "ceil";
     lc_floor := recorded1 "floor";
     lc_invert := recorded1 "invert";
     lc_neg := recorded1 "neg";
     lc_round := recorded1 "round";
     lc_trunc := recorded1 "trunc";
     lc_size := recorded1 "size";
     lc_matmul := recorded "matmul";
     lc_eq := recorded "eq";
     lc_ne := recorded "ne";
     lc_lt := recorded "lt";
     lc_le := recorded "le";
     lc_gt := recorded "gt";
     lc_ge := recorded "ge";
     lc_logical_and := recorded "logical_and";
     lc_logical_or := recorded "logical_or";
     lc_logical_xor := recorded "logical_xor";
     lc_get_item := recorded "get_item";
     lc_method_lookup :=
       fun attr =>
         if String.eqb attr "flatten" then Some (recordedn "flatten")
         else None |}.

(** The modulus of a complex number of which one part is zero; the sample
    runtime implements no other case. *)
Definition sample_complex_abs (re im : pyfloat) : Res pyfloat :=
  match re, im with
  | _, S754_zero _ => Ok (SFabs re)
  | S754_zero _, _ => Ok (SFabs im)
  | _, _ => Raise OverflowError
  end.

Definition minus_four : NumberProxy :=
  mkNumberProxy k_IntegerProxy "m" (Some (Int (-4))) c_int (Some (Int (-4))).

Definition unknown_int : NumberProxy :=
  mkNumberProxy k_IntegerProxy "u" None c_int (Some (Int (-9999))).

Definition truth : NumberProxy :=
  mkNumberProxy k_IntegerProxy "b" (Some (Bool true)) c_bool (Some (Int 1)).

Definition named_world (registered : list string) : World :=
  mkWorld (Some (mkTraceCtx registered)) None.

(** * Properties *)

(** ** The class table *)

Example mro_IntegerProxy :
  mro c_IntegerProxy =
  [c_IntegerProxy; c_NumberProxy; c_Proxy; c_VariableInterface;
   c_ProxyInterface; c_NumberProxyInterface; c_int; c_object].
Proof. vm_compute. reflexivity. Qed.
Example mro_TensorProxy :
  mro c_TensorProxy =
  [c_TensorProxy; c_Proxy; c_VariableInterface; c_ProxyInterface;
   c_TensorProxyInterface; c_object].
Proof. vm_compute. reflexivity. Qed.
Example mro_bool : mro c_bool = [c_bool; c_int; c_object].
Proof. vm_compute. reflexivity. Qed.

Lemma isinstance_Variable_wrapper (p : obj) :
  isinstance (OVariable p) c_Variable = true.
Proof. reflexivity. Qed.

Lemma number_proxy_is_proxy (p : NumberProxy) :
  isinstance (ONumberProxy p) c_ProxyInterface = true
  /\ isinstance (ONumberProxy p) c_NumberProxy = true
  /\ isinstance (ONumberProxy p) c_Variable = false.
Proof. destruct p as [[] ? ? ? ?]; repeat split; reflexivity. Qed.

Lemma getattr_name_not_Variable (a : obj) (n : string) :
  getattr_name a = Ok n -> isinstance a c_Variable = false.
Proof.
  destruct a; simpl; try discriminate; intros _; try reflexivity.
  apply number_proxy_is_proxy.
Qed.

(** ** Variables *)

(** C10, as amended.  For every value [x] that is not itself a Variable,
    [unvariableify (variableify x)] is [x]: a proxy is wrapped in a Variable
    whose unwrapping returns that proxy, any other value is returned
    unchanged by [variableify], and [unvariableify] returns every value that
    is not a Variable unchanged. *)
Theorem unvariableify_variableify (x : obj) :
  isinstance x c_Variable = false ->
  unvariableify (variableify x) = x
  /\ (isinstance x c_ProxyInterface = true ->
      variableify x = OVariable x /\ unvariableify (OVariable x) = x)
  /\ (isinstance x c_ProxyInterface = false -> variableify x = x)
  /\ unvariableify x = x.
Proof.
  intros Hx.
  assert (Hun : unvariableify x = x).
  { unfold unvariableify. rewrite Hx. reflexivity. }
  assert (Hwrap : unvariableify (OVariable x) = x).
  { unfold unvariableify. rewrite isinstance_Variable_wrapper. reflexivity. }
  unfold variableify, new_Variable.
  destruct (isinstance x c_ProxyInterface) eqn:Hp; repeat split;
    try discriminate; auto.
Qed.

(** C7.  Two Variables are equal exactly when the names of the proxies they
    wrap are equal, whatever the other attributes of the proxies; a Variable
    is equal to no value that is not a Variable, the proxy it wraps
    included; and the hash of a Variable is the hash of the wrapped proxy's
    name, so that equal names give equal hashes. *)
Theorem Variable_eq_hash (a b : obj) (n m : string) :
  getattr_name a = Ok n ->
  getattr_name b = Ok m ->
  Variable___eq__ (new_Variable a) (new_Variable b)
    = Ok (ONum (Bool (String.eqb n m)))
  /\ (Variable___eq__ (new_Variable a) (new_Variable b) = Ok (ONum (Bool true))
      <-> n = m)
  /\ (forall o, isinstance o c_Variable = false ->
        Variable___eq__ (new_Variable a) o = Ok (ONum (Bool false)))
  /\ Variable___eq__ (new_Variable a) a = Ok (ONum (Bool false))
  /\ py_hash (new_Variable a) = Ok (hash_str n)
  /\ (n = m -> py_hash (new_Variable a) = py_hash (new_Variable b)).
Proof.
  intros Ha Hb.
  assert (Heq : Variable___eq__ (new_Variable a) (new_Variable b)
                = Ok (ONum (Bool (String.eqb n m)))).
  { unfold Variable___eq__, new_Variable.
    rewrite isinstance_Variable_wrapper, Ha, Hb. reflexivity. }
  assert (Hne : forall o, isinstance o c_Variable = false ->
            Variable___eq__ (new_Variable a) o = Ok (ONum (Bool false))).
  { intros o Ho. unfold Variable___eq__. rewrite Ho. reflexivity. }
  assert (Hh : forall x k, getattr_name x = Ok k ->
            py_hash (new_Variable x) = Ok (hash_str k)).
  { intros x k Hk. unfold py_hash, new_Variable. simpl.
    rewrite Hk. reflexivity. }
  split; [exact Heq|]. split.
  { rewrite Heq. split.
    - intros H. injection H as H. apply String.eqb_eq. exact H.
    - intros ->. rewrite String.eqb_refl. reflexivity. }
  split; [exact Hne|]. split.
  { apply Hne. eapply getattr_name_not_Variable; eassumption. }
  split; [apply Hh; exact Ha|].
  intros ->. rewrite (Hh a m Ha), (Hh b m Hb). reflexivity.
Qed.

(** ** Hashing *)

Lemma hash_of_native_value (v : option number) :
  py_hash (obj_of_value v) = Ok (native_hash (obj_of_value v)).
Proof. destruct v as [[]|]; reflexivity. Qed.

Lemma hash_of_number_proxy (p : NumberProxy) :
  py_hash (ONumberProxy p) = Ok (native_hash (obj_of_value (np_value p))).
Proof. destruct p as [[] ? ? ? ?]; reflexivity. Qed.

(** C8.  The hash of a number proxy is the hash of its value, not of its
    name, for every variant and every stored value (the unknown value
    [None] included); in particular the IntegerProxy named ["a"] with the
    value 5 hashes as 5 does. *)
Theorem NumberProxy_hash_is_value_hash :
  (forall p : NumberProxy,
      py_hash (ONumberProxy p) = py_hash (obj_of_value (np_value p))
      /\ py_hash (ONumberProxy p)
         = Ok (native_hash (obj_of_value (np_value p))))
  /\ (forall (w w' : World) (p : NumberProxy),
        new_IntegerProxy (Some "a") (Some (Int 5)) w = (Ok p, w') ->
        py_hash (ONumberProxy p) = py_hash (ONum (Int 5))).
Proof.
  split.
  - intros p. rewrite hash_of_number_proxy, hash_of_native_value. auto.
  - intros w w' p H. rewrite hash_of_number_proxy.
    unfold new_IntegerProxy, NumberProxy___init__, bind, lift, ret in H.
    simpl in H.
    destruct (Proxy___init__ (Some "a") w) as [[n|e] w1]; [|discriminate].
    injection H as <- _. reflexivity.
Qed.

(** C2, as amended.  The Proxy base and every number proxy are hashable:
    [hash] returns a value (for the base it is the default hash of
    [object], the interface classes being plain).  A TensorProxy is not
    hashable, because its class defines [__eq__] and no [__hash__]; the
    Variable that wraps it hashes, by the proxy's name. *)
Theorem hashable_proxies :
  (plain_interfaces ->
   forall p : Proxy, py_hash (OProxy p) = Ok (native_hash (OProxy p)))
  /\ (forall p : NumberProxy, exists h : Z, py_hash (ONumberProxy p) = Ok h)
  /\ (forall t : TensorProxy,
        py_hash (OTensorProxy t) = Raise TypeError
        /\ py_hash (new_Variable (OTensorProxy t)) = Ok (hash_str (tp_name t))).
Proof.
  split; [|split].
  - intros [Hv Hp] p. unfold py_hash.
    change (mro (type_of (OProxy p)))
      with [c_Proxy; c_VariableInterface; c_ProxyInterface; c_object].
    unfold lookup_hash. rewrite Hv, Hp. reflexivity.
  - intros p. eexists. apply hash_of_number_proxy.
  - intros t. split; reflexivity.
Qed.

(** ** Conversions and unary plus *)

(** C3, on the code.  [int] of an IntegerProxy and [float] of a FloatProxy
    return the proxy itself and every conversion to another kind raises, but
    [complex] of a ComplexProxy raises as well ([raise self] on an object
    that is no exception is a TypeError) instead of returning the proxy. *)
Theorem dtype_conversions (self : obj) (w : World) :
  IntegerProxy___int__ self w = (Ok self, w)
  /\ FloatProxy___float__ self w = (Ok self, w)
  /\ ComplexProxy___complex__ self w = (Raise TypeError, w)
  /\ ComplexProxy___float__ self w = (Raise TypeError, w)
  /\ ComplexProxy___int__ self w = (Raise TypeError, w)
  /\ IntegerProxy___complex__ self w = (Raise TypeError, w)
  /\ IntegerProxy___float__ self w = (Raise TypeError, w)
  /\ FloatProxy___complex__ self w = (Raise TypeError, w)
  /\ FloatProxy___int__ self w = (Raise TypeError, w).
Proof. repeat split. Qed.

Lemma langctx_is_unbound : mem_string "langctx" module_globals = false.
Proof. reflexivity. Qed.

(** C4, on the code.  Unary plus on a TensorProxy returns the proxy itself
    in every world, with or without a language context.  Unary plus on a
    ComplexProxy, an IntegerProxy or a FloatProxy returns nothing in any
    world: the method reads [langctx], a name that it never binds and that
    the module does not define (every other unary method starts with
    [langctx = get_langctx()]), so the call raises NameError before either
    of its branches, [return pyval(self).__pos__()] and [return self], is
    reached.  The world is left as it is. *)
Theorem unary_plus_of_proxies (self : obj) (w : World) :
  TensorProxy___pos__ self w = (Ok self, w)
  /\ ComplexProxy___pos__ self w = (Raise NameError, w)
  /\ IntegerProxy___pos__ self w = (Raise NameError, w)
  /\ FloatProxy___pos__ self w = (Raise NameError, w).
Proof.
  unfold ComplexProxy___pos__, IntegerProxy___pos__, FloatProxy___pos__,
    load_global.
  rewrite langctx_is_unbound. repeat split.
Qed.

(** ** Creating proxies *)

(** C9, on the code.  [numberproxy] builds a FloatProxy for [float] and an
    IntegerProxy for [int] and for [bool], with the value it was given; for
    [complex] the class map has no entry and the call raises KeyError. *)
Theorem numberproxy_kinds (value : option number) (w : World) :
  numberproxy c_complex value w = (Raise KeyError, w)
  /\ numberproxy c_float value w = new_FloatProxy None value w
  /\ numberproxy c_int value w = new_IntegerProxy None value w
  /\ numberproxy c_bool value w = new_IntegerProxy None value w.
Proof. repeat split. Qed.

(** ** Running computations *)

Lemma bind_Ok {A B : Type} (m : M A) (k : A -> M B) (w w' : World) (b : B) :
  bind m k w = (Ok b, w') ->
  exists (a : A) (w1 : World), m w = (Ok a, w1) /\ k a w1 = (Ok b, w').
Proof.
  unfold bind. destruct (m w) as [[a|e] w1]; [|discriminate].
  intros H. exists a, w1. auto.
Qed.

Lemma lift_Ok {A : Type} (r : Res A) (w w' : World) (a : A) :
  lift r w = (Ok a, w') -> r = Ok a /\ w' = w.
Proof. unfold lift. intros H. injection H as -> ->. auto. Qed.

Lemma Proxy_init_named (w : World) (trace : TraceCtx) (name : string) :
  tracectx w = Some trace ->
  mem_string name (names trace) = false ->
  Proxy___init__ (Some name) w
  = (Ok name, mkWorld (Some (mkTraceCtx (name :: names trace))) (langctx w)).
Proof.
  destruct w as [tr lctx]. simpl. intros -> Hf.
  unfold Proxy___init__, bind, get_tracectx, lift, add_name, set_tracectx,
    ret.
  simpl. rewrite Hf. reflexivity.
Qed.

Lemma Proxy_init_unnamed (trace : TraceCtx) (lctx : option LangCtx) :
  Proxy___init__ None (mkWorld (Some trace) lctx)
  = (Ok (fresh_name (names trace)),
     mkWorld (Some (mkTraceCtx (fresh_name (names trace) :: names trace))) lctx).
Proof. reflexivity. Qed.

Lemma NumberProxy_init_Ok (c : number_proxy_class) (numeral : option number)
    (name : option string) (value : option number) (python_type : cls)
    (w w' : World) (p : NumberProxy) :
  NumberProxy___init__ c numeral name value python_type w = (Ok p, w') ->
  exists n : string, p = mkNumberProxy c n value python_type numeral.
Proof.
  unfold NumberProxy___init__. intros H.
  apply bind_Ok in H. destruct H as (n & w1 & _ & H).
  unfold ret in H. injection H as <- _. exists n. reflexivity.
Qed.

Lemma NumberProxy_init_named (c : number_proxy_class)
    (numeral : option number) (value : option number) (python_type : cls)
    (w : World) (trace : TraceCtx) (name : string) :
  tracectx w = Some trace ->
  mem_string name (names trace) = false ->
  NumberProxy___init__ c numeral (Some name) value python_type w
  = (Ok (mkNumberProxy c name value python_type numeral),
     mkWorld (Some (mkTraceCtx (name :: names trace))) (langctx w)).
Proof.
  intros Ht Hf. unfold NumberProxy___init__, bind.
  rewrite (Proxy_init_named w trace name Ht Hf). reflexivity.
Qed.

(** What a successful call of a variant's class determines: the numeral
    that [__new__] computed from the value, and the attributes. *)
Lemma new_variant_Ok (name : option string) (value : option number)
    (w w' : World) (p : NumberProxy) :
  (new_ComplexProxy name value w = (Ok p, w') ->
   exists n numeral, ComplexProxy___new__ value = Ok numeral
     /\ p = mkNumberProxy k_ComplexProxy n value c_complex (Some numeral))
  /\ (new_IntegerProxy name value w = (Ok p, w') ->
      exists n numeral, IntegerProxy___new__ value = Ok numeral
        /\ p = mkNumberProxy k_IntegerProxy n value
                 (if isinstance (obj_of_value value) c_bool
                  then c_bool else c_int) (Some numeral))
  /\ (new_FloatProxy name value w = (Ok p, w') ->
      exists n numeral, FloatProxy___new__ value = Ok numeral
        /\ p = mkNumberProxy k_FloatProxy n value c_float (Some numeral)).
Proof.
  repeat split; intros H; apply bind_Ok in H;
    destruct H as (numeral & w1 & Hnew & H);
    apply lift_Ok in Hnew; destruct Hnew as [Hnew _];
    apply NumberProxy_init_Ok in H; destruct H as [n ->];
    exists n, numeral; auto.
Qed.

Lemma reduce_mul_from (shape : list Z) (a : Z) :
  fold_left Z.mul shape a = (a * product shape)%Z.
Proof.
  revert a. induction shape as [|x shape IH]; intros a; simpl.
  - lia.
  - rewrite IH. unfold product. simpl. lia.
Qed.

Lemma reduce_mul_product (shape : list Z) : reduce_mul shape = product shape.
Proof. unfold reduce_mul. rewrite reduce_mul_from. lia. Qed.

(** What a successful call of [TensorProxy] determines. *)
Lemma TensorProxy_init_Ok (name : option string) (like : obj)
    (shape : option (list Z)) (device dtype : obj) (w w' : World)
    (t : TensorProxy) :
  TensorProxy___init__ name like shape device dtype w = (Ok t, w') ->
  tp_numel t = reduce_mul (tp_shape t)
  /\ tp_ndim t = len (tp_shape t)
  /\ check_valid_shape (tp_shape t) = Ok tt
  /\ tp_dtype t = to_strong_dtype (tp_true_dtype t).
Proof.
  unfold TensorProxy___init__. intros H.
  apply bind_Ok in H. destruct H as (n & w1 & _ & H).
  apply bind_Ok in H. destruct H as ([[s0 d0] t0] & w2 & _ & H).
  destruct (match shape with Some s => Some s | None => s0 end) as [sh|];
    [|discriminate].
  apply bind_Ok in H. destruct H as ([] & w3 & Hs & H).
  apply lift_Ok in Hs. destruct Hs as [Hs _].
  apply bind_Ok in H. destruct H as ([] & w4 & _ & H).
  apply bind_Ok in H. destruct H as ([] & w5 & _ & H).
  destruct (if_not_None device d0); try discriminate.
  destruct (convert_numbertype (if_not_None dtype t0)); try discriminate.
  unfold ret in H. injection H as <- _. simpl. auto.
Qed.

Lemma TensorProxy_init_like (t : TensorProxy) (w : World) (trace : TraceCtx)
    (name : string) :
  tracectx w = Some trace ->
  mem_string name (names trace) = false ->
  check_valid_shape (tp_shape t) = Ok tt ->
  TensorProxy___init__ (Some name) (OTensorProxy t) None ONone ONone w
  = (Ok (mkTensorProxy name (tp_shape t) (tp_device t)
           (to_strong_dtype (tp_true_dtype t)) (tp_true_dtype t)
           (reduce_mul (tp_shape t)) (len (tp_shape t))),
     mkWorld (Some (mkTraceCtx (name :: names trace))) (langctx w)).
Proof.
  intros Ht Hf Hs. unfold TensorProxy___init__, bind at 1.
  rewrite (Proxy_init_named w trace name Ht Hf).
  unfold bind, lift, ret. simpl. unfold py_tuple. rewrite Hs. reflexivity.
Qed.

(** ** Tensor proxies *)

(** C6.  A TensorProxy that was constructed has [numel] equal to the
    product of the entries of its shape and [ndim] equal to the length of
    the shape: 24 and 3 for the shape (2,3,4), 1 and 0 for the empty shape.
    Renaming, the only operation of the class that builds a TensorProxy from
    it, yields the same shape, [numel] and [ndim].  The construction from a
    shape of non-negative extents, a device and a dtype succeeds in an
    active trace. *)
Theorem TensorProxy_numel_ndim :
  (forall (name : option string) (like : obj) (shape : option (list Z))
          (device dtype : obj) (w w' : World) (t : TensorProxy),
      TensorProxy___init__ name like shape device dtype w = (Ok t, w') ->
      tp_numel t = product (tp_shape t)
      /\ tp_ndim t = Z.of_nat (List.length (tp_shape t))
      /\ (tp_shape t = [2; 3; 4] -> tp_numel t = 24 /\ tp_ndim t = 3)
      /\ (tp_shape t = [] -> tp_numel t = 1 /\ tp_ndim t = 0)
      /\ (forall (name2 : string) (w2 w3 : World) (t2 : TensorProxy),
            replace_name (OTensorProxy t) name2 w2 = (Ok (OTensorProxy t2), w3) ->
            tp_shape t2 = tp_shape t
            /\ tp_numel t2 = tp_numel t /\ tp_ndim t2 = tp_ndim t))
  /\ (forall (trace : TraceCtx) (lctx : option LangCtx) (shape : list Z)
             (d : Device) (dt : DType),
        forallb (fun l => 0 <=? l) shape = true ->
        TensorProxy___init__ None ONone (Some shape) (ODevice d) (ODType dt)
          (mkWorld (Some trace) lctx)
        = (Ok (mkTensorProxy (fresh_name (names trace)) shape d
                 (to_strong_dtype dt) dt (product shape)
                 (Z.of_nat (List.length shape))),
           mkWorld
             (Some (mkTraceCtx (fresh_name (names trace) :: names trace)))
             lctx)).
Proof.
  split.
  - intros name like shape device dtype w w' t H.
    apply TensorProxy_init_Ok in H. destruct H as (Hn & Hd & Hs & Ht).
    rewrite reduce_mul_product in Hn.
    split; [exact Hn|]. split; [exact Hd|].
    split; [intros E; rewrite Hn, Hd, E; split; reflexivity|].
    split; [intros E; rewrite Hn, Hd, E; split; reflexivity|].
    intros name2 w2 w3 t2 H2. simpl in H2.
    unfold TensorProxy_replace_name in H2.
    apply bind_Ok in H2. destruct H2 as (t3 & w4 & H2 & H3).
    unfold ret in H3. injection H3 as -> _.
    assert (Hsh : tp_shape t2 = tp_shape t).
    { revert H2. unfold TensorProxy___init__, bind, lift, ret.
      destruct (Proxy___init__ (Some name2) w2) as [[n|e] w5];
        [|discriminate].
      simpl. unfold py_tuple.
      destruct (check_valid_shape (tp_shape t)); [|discriminate].
      intros H. injection H as <- _. reflexivity. }
    apply TensorProxy_init_Ok in H2. destruct H2 as (Hn2 & Hd2 & _ & _).
    rewrite Hn2, Hd2, Hsh, Hn, Hd. rewrite reduce_mul_product. auto.
  - intros trace lctx shape d dt Hs.
    unfold TensorProxy___init__, bind at 1. rewrite Proxy_init_unnamed.
    unfold bind, lift, ret, check_valid_shape. simpl. rewrite Hs.
    rewrite reduce_mul_product. reflexivity.
Qed.

(** ** Renaming *)

(** C5.  In an active trace and for a name that is not registered in it,
    [replace_name] on a proxy that was constructed returns an instance of
    the same class with the given name and with every other attribute equal
    to the original's: the value and the python type of a number proxy (and
    its numeral), and the shape, device, dtype, true dtype, numel and ndim of
    a tensor proxy.  The name is registered in the trace. *)
Theorem replace_name_preserves (w : World) (trace : TraceCtx) (name : string) :
  tracectx w = Some trace ->
  mem_string name (names trace) = false ->
  let w' := mkWorld (Some (mkTraceCtx (name :: names trace))) (langctx w) in
  (forall p : Proxy,
      replace_name (OProxy p) name w = (Ok (OProxy (mkProxy name)), w'))
  /\ (forall p : NumberProxy,
        constructed_number p ->
        replace_name (ONumberProxy p) name w
        = (Ok (ONumberProxy
                 (mkNumberProxy (np_class p) name (np_value p)
                    (np_python_type p) (np_numeral p))), w'))
  /\ (forall t : TensorProxy,
        constructed_tensor t ->
        replace_name (OTensorProxy t) name w
        = (Ok (OTensorProxy
                 (mkTensorProxy name (tp_shape t) (tp_device t) (tp_dtype t)
                    (tp_true_dtype t) (tp_numel t) (tp_ndim t))), w')).
Proof.
  intros Ht Hf w'. split; [|split].
  - intros p. simpl. unfold Proxy_replace_name, new_Proxy, bind.
    rewrite (Proxy_init_named w trace name Ht Hf). reflexivity.
  - intros p (nm & value & pt & w0 & w1 & [H|[H|[H|H]]]).
    + apply NumberProxy_init_Ok in H. destruct H as [n ->]. simpl.
      unfold NumberProxy_replace_name, new_NumberProxy, bind. simpl.
      rewrite (NumberProxy_init_named _ _ _ _ w trace name Ht Hf).
      reflexivity.
    + apply new_variant_Ok in H. destruct H as (n & numeral & Hnew & ->).
      simpl. unfold ComplexProxy_replace_name, new_ComplexProxy, bind, lift.
      simpl. rewrite Hnew.
      rewrite (NumberProxy_init_named _ _ _ _ w trace name Ht Hf).
      reflexivity.
    + apply new_variant_Ok in H. destruct H as (n & numeral & Hnew & ->).
      simpl. unfold IntegerProxy_replace_name, new_IntegerProxy, bind, lift.
      simpl. rewrite Hnew.
      rewrite (NumberProxy_init_named _ _ _ _ w trace name Ht Hf).
      reflexivity.
    + apply new_variant_Ok in H. destruct H as (n & numeral & Hnew & ->).
      simpl. unfold FloatProxy_replace_name, new_FloatProxy, bind, lift.
      simpl. rewrite Hnew.
      rewrite (NumberProxy_init_named _ _ _ _ w trace name Ht Hf).
      reflexivity.
  - intros t (nm & like & shape & device & dtype & w0 & w1 & H).
    apply TensorProxy_init_Ok in H. destruct H as (Hn & Hd & Hs & Hdt).
    simpl. unfold TensorProxy_replace_name, bind.
    rewrite (TensorProxy_init_like t w trace name Ht Hf Hs).
    unfold ret. rewrite Hn, Hd, Hdt. reflexivity.
Qed.

(** ** Binary operators of the number proxies *)

Local Arguments arith : simpl never.

(** Where the native type implements the method, calling the method is
    evaluating the operator. *)
Lemma value_method_is_operator (d : dunder) (a b : number) :
  has_method a d = true ->
  (rank b <=? rank a)%nat = true ->
  getattr_dunder (ONum a) d = Ok (value_method d a)
  /\ value_method d a (ONum b) = native_operation d a b.
Proof.
  intros Hm Hr. split.
  - unfold getattr_dunder. rewrite Hm. reflexivity.
  - unfold native_operation, py_operator, slot, value_method.
    destruct a, b, d; simpl in *; try discriminate;
      first
        [ reflexivity
        | match goal with
          | |- context [arith ?op ?x ?y] =>
              destruct (arith op x y) as [[n|q r]|e]; reflexivity
          end ].
Qed.

Lemma binary_method_without_context (k : number_proxy_class) (d : dunder)
    (self other : obj) (trace : option TraceCtx) :
  k <> k_NumberProxy ->
  binary_method k d self other (mkWorld trace None)
  = (if operator_form d then
       (if reflected d then native_operator (op_of d) other self
        else native_operator (op_of d) self other)
     else native_method d self other) (mkWorld trace None).
Proof. intros Hk. destruct k, d; try reflexivity; contradiction. Qed.

Lemma binary_method_with_context (k : number_proxy_class) (d : dunder)
    (self other : obj) (trace : option TraceCtx) (ctx : LangCtx) :
  k <> k_NumberProxy ->
  binary_method k d self other (mkWorld trace (Some ctx))
  = (if reflected d then call_ctx (context_method ctx (op_of d)) other self
     else call_ctx (context_method ctx (op_of d)) self other)
      (mkWorld trace (Some ctx)).
Proof. intros Hk. destruct k, d; try reflexivity; contradiction. Qed.

(** C1, on the code.  For each of the twenty binary arithmetic and shift
    methods of an IntegerProxy, FloatProxy or ComplexProxy: with a language
    context active the method returns what the context's method of the same
    name returns on the operands themselves, the proxy first for a forward
    method and the other operand first for a reflected one.  With no
    language context active and the values of both operands known,
    [__add__], [__radd__], [__mul__] and [__rmul__], which are written with
    the operator ([pyval(self) + pyval(other)]), return what the native
    operation gives on the two values.  The sixteen other methods call the
    method of that name on the proxy's value
    ([pyval(self).__sub__(pyval(other))]): they return the native result
    only where the type of the proxy's value has the method and accepts the
    type of the other value.  Elsewhere they return [NotImplemented], as
    [IntegerProxy(value=3).__sub__(0.5)] does where [3 - 0.5] is a number,
    or raise AttributeError, and no numeral is returned. *)
Theorem binary_operator_dispatch (p : NumberProxy) (d : dunder) (other : obj)
    (trace : option TraceCtx) :
  np_class p <> k_NumberProxy ->
  (forall a b : number,
      np_value p = Some a ->
      pyval other = Ok (ONum b) ->
      (applicable d a b = true ->
       binary_method (np_class p) d (ONumberProxy p) other (mkWorld trace None)
       = (native_operation d a b, mkWorld trace None))
      /\ (applicable d a b = false ->
          fst (binary_method (np_class p) d (ONumberProxy p) other
                 (mkWorld trace None))
          = (if has_method a d then Ok ONotImplemented
             else Raise AttributeError)))
  /\ (forall ctx : LangCtx,
        binary_method (np_class p) d (ONumberProxy p) other
          (mkWorld trace (Some ctx))
        = call_ctx (context_method ctx (op_of d))
            (if reflected d then other else ONumberProxy p)
            (if reflected d then ONumberProxy p else other)
            (mkWorld trace (Some ctx))).
Proof.
  intros Hk. split.
  - intros a b Ha Hb.
    assert (Hself : pyval (ONumberProxy p) = Ok (ONum a)).
    { unfold pyval, check_type.
      destruct (number_proxy_is_proxy p) as (_ & Hi & _).
      simpl existsb. rewrite Hi. simpl. rewrite Ha. reflexivity. }
    rewrite binary_method_without_context by exact Hk.
    unfold applicable.
    destruct (operator_form d) eqn:Hform; (split; [|try discriminate]).
    + intros _. unfold native_operation, native_operator, bind, lift.
      destruct (reflected d); rewrite Hself, Hb; reflexivity.
    + simpl. intros Happ. apply andb_prop in Happ. destruct Happ as [Hm Hr].
      destruct (value_method_is_operator d a b Hm Hr) as [Hget Hcall].
      unfold native_method, bind, lift.
      rewrite Hself, Hget, Hb, Hcall. reflexivity.
    + simpl. intros Happ. unfold native_method, bind, lift.
      rewrite Hself. unfold getattr_dunder.
      destruct (has_method a d); [|reflexivity].
      simpl in Happ. rewrite Hb. unfold value_method. simpl.
      rewrite Happ. reflexivity.
  - intros ctx. rewrite binary_method_with_context by exact Hk.
    destruct (reflected d); reflexivity.
Qed.

(** * Further properties *)

(** ** [pyval] *)

Lemma pyval_number_proxy (p : NumberProxy) :
  pyval (ONumberProxy p) = Ok (obj_of_value (np_value p)).
Proof. destruct p as [[] ? ? ? ?]; reflexivity. Qed.

Lemma pyval_number (n : number) : pyval (ONum n) = Ok (ONum n).
Proof. destruct n; reflexivity. Qed.

Lemma pyval_other (x : obj) :
  (forall p, x <> ONumberProxy p) -> (forall n, x <> ONum n) ->
  pyval x = Raise CheckError.
Proof.
  intros H1 H2. destruct x; try reflexivity.
  - exfalso. eapply H2. reflexivity.
  - exfalso. eapply H1. reflexivity.
Qed.

Lemma pyval_native (x v : obj) :
  pyval x = Ok v -> v = ONone \/ exists n : number, v = ONum n.
Proof.
  intros H. destruct x;
    try (rewrite pyval_other in H;
         [discriminate | intros ? ?; discriminate
                       | intros ? ?; discriminate]).
  - rewrite pyval_number in H. injection H as <-. right. eexists. reflexivity.
  - rewrite pyval_number_proxy in H. injection H as <-.
    destruct (np_value p); [right; eexists; reflexivity | left; reflexivity].
Qed.

(** ** The registry of names *)

Lemma Proxy_init_Ok (name : option string) (w w' : World) (n : string) :
  Proxy___init__ name w = (Ok n, w') ->
  exists trace : TraceCtx,
    tracectx w = Some trace
    /\ w' = register n trace w
    /\ (forall m, name = Some m -> n = m /\ mem_string m (names trace) = false).
Proof.
  destruct w as [[trace|] lctx]; [|discriminate].
  unfold Proxy___init__, bind, get_tracectx, lift, add_name, set_tracectx,
    ret, register. simpl.
  destruct name as [m|].
  - destruct (mem_string m (names trace)) eqn:Hm; [discriminate|].
    intros H. injection H as <- <-. exists trace.
    split; [reflexivity|]. split; [reflexivity|].
    intros m' Hm'. injection Hm' as <-. auto.
  - intros H. injection H as <- <-. exists trace.
    split; [reflexivity|]. split; [reflexivity|]. discriminate.
Qed.

Lemma Proxy_init_Raise (name : option string) (w w' : World) (e : exn) :
  Proxy___init__ name w = (Raise e, w') -> w' = w.
Proof.
  destruct w as [[trace|] lctx].
  - unfold Proxy___init__, bind, get_tracectx, lift, add_name, set_tracectx,
      ret. simpl.
    destruct name as [m|]; [|discriminate].
    destruct (mem_string m (names trace)); [|discriminate].
    intros H. injection H as _ <-. reflexivity.
  - intros H. injection H as _ <-. reflexivity.
Qed.

Lemma NumberProxy_init_registers (c : number_proxy_class)
    (numeral : option number) (name : option string) (value : option number)
    (python_type : cls) (w w' : World) (p : NumberProxy) :
  NumberProxy___init__ c numeral name value python_type w = (Ok p, w') ->
  exists trace : TraceCtx,
    tracectx w = Some trace
    /\ w' = register (np_name p) trace w
    /\ (forall m, name = Some m ->
          np_name p = m /\ mem_string m (names trace) = false).
Proof.
  unfold NumberProxy___init__. intros H.
  apply bind_Ok in H. destruct H as (n & w1 & Hi & H).
  unfold ret in H. injection H as <- <-.
  apply Proxy_init_Ok in Hi. exact Hi.
Qed.

Lemma TensorProxy_init_registers (name : option string) (like : obj)
    (shape : option (list Z)) (device dtype : obj) (w w' : World)
    (t : TensorProxy) :
  TensorProxy___init__ name like shape device dtype w = (Ok t, w') ->
  exists trace : TraceCtx,
    tracectx w = Some trace
    /\ w' = register (tp_name t) trace w
    /\ (forall m, name = Some m ->
          tp_name t = m /\ mem_string m (names trace) = false).
Proof.
  unfold TensorProxy___init__. intros H.
  apply bind_Ok in H. destruct H as (n & w1 & Hi & H).
  apply Proxy_init_Ok in Hi.
  apply bind_Ok in H. destruct H as ([[s0 d0] t0] & w2 & Hl & H).
  assert (Hw2 : w2 = w1).
  { destruct (is_None like).
    - unfold ret in Hl. injection Hl as _ _ _ <-. reflexivity.
    - apply bind_Ok in Hl. destruct Hl as ([] & w3 & Hc & Hl).
      apply lift_Ok in Hc. destruct Hc as [_ ->].
      destruct like; try discriminate.
      unfold ret in Hl. injection Hl as _ _ _ <-. reflexivity. }
  subst w2.
  destruct (match shape with Some s => Some s | None => s0 end) as [sh|];
    [|discriminate].
  apply bind_Ok in H. destruct H as ([] & w3 & Hs & H).
  apply lift_Ok in Hs. destruct Hs as [_ ->].
  apply bind_Ok in H. destruct H as ([] & w4 & Hd & H).
  apply lift_Ok in Hd. destruct Hd as [_ ->].
  apply bind_Ok in H. destruct H as ([] & w5 & Ht & H).
  apply lift_Ok in Ht. destruct Ht as [_ ->].
  destruct (if_not_None device d0); try discriminate.
  destruct (convert_numbertype (if_not_None dtype t0)); try discriminate.
  unfold ret in H. injection H as <- <-. simpl. exact Hi.
Qed.

(** X2.  Every successful construction of a proxy (Proxy, NumberProxy, its
    three variants, TensorProxy) needs an active trace and registers
    exactly one name in it, the name of the new proxy, on top of the names
    that were registered; the language context is left as it is.  A name
    passed by the caller is the proxy's name and was not registered before,
    so that a proxy constructed under a caller's name differs in name from
    every proxy constructed before it in the trace. *)
Theorem construction_registers_name (name : option string) (w w' : World)
    (o : obj) :
  construction name w w' o ->
  exists (trace : TraceCtx) (n : string),
    tracectx w = Some trace
    /\ getattr_name o = Ok n
    /\ w' = register n trace w
    /\ (forall m, name = Some m -> n = m /\ mem_string m (names trace) = false)
    /\ (forall (m : string) (w'' : World) (o' : obj),
          construction (Some m) w' w'' o' ->
          getattr_name o' = Ok m /\ m <> n).
Proof.
  assert (Hreg : forall name w w' o, construction name w w' o ->
            exists trace n, tracectx w = Some trace
              /\ getattr_name o = Ok n
              /\ w' = register n trace w
              /\ (forall m, name = Some m ->
                    n = m /\ mem_string m (names trace) = false)).
  { clear. intros name w w' o [H|[H|[H|H]]].
    - destruct H as (p & H & ->). unfold new_Proxy in H.
      apply bind_Ok in H. destruct H as (n & w1 & Hi & H).
      unfold ret in H. injection H as <- <-.
      apply Proxy_init_Ok in Hi. destruct Hi as (trace & Hi).
      exists trace, n. simpl. tauto.
    - destruct H as (value & pt & p & H & ->).
      apply NumberProxy_init_registers in H. destruct H as (trace & H).
      exists trace, (np_name p). simpl. tauto.
    - destruct H as (value & p & H & ->).
      assert (Hi : exists c numeral pt w1,
                 NumberProxy___init__ c numeral name value pt w1 = (Ok p, w')
                 /\ w1 = w).
      { destruct H as [H|[H|H]]; apply bind_Ok in H;
          destruct H as (numeral & w1 & Hnew & H);
          apply lift_Ok in Hnew; destruct Hnew as [_ ->];
          eexists _, _, _, _; (split; [exact H | reflexivity]). }
      destruct Hi as (c & numeral & pt & w1 & Hi & ->).
      apply NumberProxy_init_registers in Hi. destruct Hi as (trace & Hi).
      exists trace, (np_name p). simpl. tauto.
    - destruct H as (like & shape & device & dtype & t & H & ->).
      apply TensorProxy_init_registers in H. destruct H as (trace & H).
      exists trace, (tp_name t). simpl. tauto. }
  intros H. destruct (Hreg _ _ _ _ H) as (trace & n & Ht & Hn & Hw & Hm).
  exists trace, n. repeat split; auto; try (apply Hm; assumption).
  - destruct (Hreg _ _ _ _ H0) as (trace' & n' & Ht' & Hn' & _ & Hm').
    destruct (Hm' m eq_refl) as [-> _]. exact Hn'.
  - destruct (Hreg _ _ _ _ H0) as (trace' & n' & Ht' & Hn' & _ & Hm').
    destruct (Hm' m eq_refl) as [-> Hfresh].
    rewrite Hw in Ht'. unfold register in Ht'. simpl in Ht'.
    injection Ht' as <-. simpl in Hfresh.
    intros ->. rewrite String.eqb_refl in Hfresh. discriminate.
Qed.

(** ** Failed constructions *)

Lemma bind_Raise {A B : Type} (m : M A) (k : A -> M B) (w w' : World)
    (e : exn) :
  bind m k w = (Raise e, w') ->
  m w = (Raise e, w')
  \/ exists (a : A) (w1 : World), m w = (Ok a, w1) /\ k a w1 = (Raise e, w').
Proof.
  unfold bind. destruct (m w) as [[a|e'] w1].
  - intros H. right. exists a, w1. auto.
  - intros H. left. injection H as -> ->. reflexivity.
Qed.

Lemma NumberProxy_init_Raise (c : number_proxy_class)
    (numeral : option number) (name : option string) (value : option number)
    (python_type : cls) (w w' : World) (e : exn) :
  NumberProxy___init__ c numeral name value python_type w = (Raise e, w') ->
  w' = w.
Proof.
  unfold NumberProxy___init__. intros H. apply bind_Raise in H.
  destruct H as [H|(n & w1 & _ & H)].
  - apply Proxy_init_Raise in H. exact H.
  - discriminate H.
Qed.

Lemma TensorProxy_init_named_step (name : string) (like : obj)
    (shape : option (list Z)) (device dtype : obj) (trace : TraceCtx)
    (lctx : option LangCtx) (r : Res TensorProxy) (w' : World) :
  mem_string name (names trace) = false ->
  TensorProxy___init__ (Some name) like shape device dtype
    (mkWorld (Some trace) lctx) = (r, w') ->
  w' = mkWorld (Some (mkTraceCtx (name :: names trace))) lctx.
Proof.
  intros Hf. unfold TensorProxy___init__, bind at 1.
  rewrite (Proxy_init_named (mkWorld (Some trace) lctx) trace name eq_refl Hf).
  simpl langctx.
  set (w1 := mkWorld (Some (mkTraceCtx (name :: names trace))) lctx).
  unfold bind, lift, ret, throw.
  destruct (is_None like); simpl.
  - destruct shape as [s|]; simpl.
    + destruct (check_valid_shape s) as [[]|]; simpl;
        [|intros H; injection H as _ <-; reflexivity].
      destruct (check_type (if_not_None device ONone) [c_Device]) as [[]|];
        [|intros H; injection H as _ <-; reflexivity].
      destruct (check_type (convert_numbertype (if_not_None dtype ONone))
                  [c_dtype]) as [[]|];
        [|intros H; injection H as _ <-; reflexivity].
      destruct (if_not_None device ONone);
        try (intros H; injection H as _ <-; reflexivity).
      destruct (convert_numbertype (if_not_None dtype ONone));
        intros H; injection H as _ <-; reflexivity.
    + intros H; injection H as _ <-; reflexivity.
  - destruct (check_type like [c_TensorProxy]) as [[]|];
      [|intros H; injection H as _ <-; reflexivity].
    destruct like; try (intros H; injection H as _ <-; reflexivity).
    destruct (match shape with Some s => Some s | None => _ end) as [s|];
      [|intros H; injection H as _ <-; reflexivity].
    destruct (check_valid_shape s) as [[]|]; simpl;
      [|intros H; injection H as _ <-; reflexivity].
    destruct (check_type _ [c_Device]) as [[]|];
      [|intros H; injection H as _ <-; reflexivity].
    destruct (check_type _ [c_dtype]) as [[]|];
      [|intros H; injection H as _ <-; reflexivity].
    destruct (if_not_None device _);
      try (intros H; injection H as _ <-; reflexivity).
    destruct (convert_numbertype _);
      intros H; injection H as _ <-; reflexivity.
Qed.

(** X3.  A failed construction of a Proxy or a number proxy leaves the
    world as it was: the numeral is built before a name is taken, and a
    rejected name is not registered.  A failed construction of a
    TensorProxy under a caller's name that was free has registered that
    name none the less, because the arguments are validated after the name
    is taken: the same call, and every other construction under that name,
    then fails with DuplicateNameError. *)
Theorem failed_construction_and_names :
  (forall (name : option string) (value : option number) (python_type : cls)
          (w w' : World) (e : exn),
      (fst (new_Proxy name w) = Raise e -> snd (new_Proxy name w) = w)
      /\ (new_NumberProxy name value python_type w = (Raise e, w') -> w' = w)
      /\ (new_ComplexProxy name value w = (Raise e, w') -> w' = w)
      /\ (new_IntegerProxy name value w = (Raise e, w') -> w' = w)
      /\ (new_FloatProxy name value w = (Raise e, w') -> w' = w))
  /\ (forall (name : string) (like : obj) (shape : option (list Z))
             (device dtype : obj) (trace : TraceCtx) (lctx : option LangCtx)
             (e : exn) (w' : World),
        mem_string name (names trace) = false ->
        TensorProxy___init__ (Some name) like shape device dtype
          (mkWorld (Some trace) lctx) = (Raise e, w') ->
        w' = mkWorld (Some (mkTraceCtx (name :: names trace))) lctx
        /\ (forall like2 shape2 device2 dtype2,
              TensorProxy___init__ (Some name) like2 shape2 device2 dtype2 w'
              = (Raise DuplicateNameError, w'))
        /\ (forall value,
              new_IntegerProxy (Some name) value w'
              = (Raise DuplicateNameError, w')
              \/ exists e', new_IntegerProxy (Some name) value w'
                            = (Raise e', w')
                            /\ IntegerProxy___new__ value = Raise e')).
Proof.
  split.
  - intros name value pt w w' e.
    assert (Hv : forall (new : option number -> Res number) c pt',
               bind (lift (new value))
                 (fun numeral =>
                    NumberProxy___init__ c (Some numeral) name value pt') w
               = (Raise e, w') -> w' = w).
    { intros new c pt' H. apply bind_Raise in H.
      destruct H as [H|(numeral & w1 & Hn & H)].
      - unfold lift in H. injection H as _ <-. reflexivity.
      - unfold lift in Hn. injection Hn as _ <-.
        apply NumberProxy_init_Raise in H. exact H. }
    repeat split.
    + unfold new_Proxy, bind.
      destruct (Proxy___init__ name w) as [[n|e'] w1] eqn:Hi;
        simpl; [discriminate|].
      intros _. apply Proxy_init_Raise in Hi. exact Hi.
    + apply NumberProxy_init_Raise.
    + apply (Hv ComplexProxy___new__).
    + apply (Hv IntegerProxy___new__).
    + apply (Hv FloatProxy___new__).
  - intros name like shape device dtype trace lctx e w' Hf H.
    apply TensorProxy_init_named_step in H; [|exact Hf]. subst w'.
    assert (Hdup : Proxy___init__ (Some name)
                     (mkWorld (Some (mkTraceCtx (name :: names trace))) lctx)
                   = (Raise DuplicateNameError,
                      mkWorld (Some (mkTraceCtx (name :: names trace))) lctx)).
    { unfold Proxy___init__, bind, get_tracectx, lift, add_name. simpl.
      rewrite String.eqb_refl. reflexivity. }
    split; [reflexivity|]. split.
    + intros like2 shape2 device2 dtype2.
      unfold TensorProxy___init__, bind at 1. rewrite Hdup. reflexivity.
    + intros value. unfold new_IntegerProxy, bind, lift.
      destruct (IntegerProxy___new__ value) as [numeral|e'] eqn:Hn.
      * left. unfold NumberProxy___init__, bind. rewrite Hdup. reflexivity.
      * right. exists e'. auto.
Qed.

(** ** Validation in [TensorProxy.__init__] *)

Lemma bind_Proxy_init_named {B : Type} (k : string -> M B) (w : World)
    (trace : TraceCtx) (name : string) :
  tracectx w = Some trace ->
  mem_string name (names trace) = false ->
  bind (Proxy___init__ (Some name)) k w
  = k name (mkWorld (Some (mkTraceCtx (name :: names trace))) (langctx w)).
Proof.
  intros Ht Hf. unfold bind at 1.
  rewrite (Proxy_init_named w trace name Ht Hf). reflexivity.
Qed.

Lemma isinstance_catalog (o : obj) :
  isinstance o c_Device = match o with ODevice _ => true | _ => false end
  /\ isinstance o c_dtype = match o with ODType _ => true | _ => false end
  /\ isinstance o c_TensorProxy
     = match o with OTensorProxy _ => true | _ => false end.
Proof.
  destruct o as [| | [] | | | | | | | [[] ? ? ? ?] | | | |];
    repeat split; reflexivity.
Qed.

Ltac validation_fails :=
  split;
  [ split; [intros [? H]; discriminate H | intros H; discriminate H]
  | split;
    [ intros H; first [reflexivity | discriminate H]
    | intros Hn Hv;
      first [reflexivity | exfalso; apply Hn; reflexivity] ] ].

Ltac validation_succeeds :=
  split;
  [ split; [intros _; reflexivity | intros _; eexists; reflexivity]
  | split; [intros H; discriminate H | intros _ Hv; discriminate Hv] ].

(** X4.  In an active trace and under a free name, the construction of a
    TensorProxy without [like] succeeds exactly when the shape is given with
    non-negative extents, the device is a device, and the dtype is a dtype
    or a number type.  Without a shape it fails with TypeError, and with any
    other invalid argument it fails with the check's error. *)
Theorem TensorProxy_validation (name : string) (shape : option (list Z))
    (device dtype : obj) (trace : TraceCtx) (lctx : option LangCtx) :
  mem_string name (names trace) = false ->
  let r := fst (TensorProxy___init__ (Some name) ONone shape device dtype
                  (mkWorld (Some trace) lctx)) in
  ((exists t, r = Ok t) <-> valid_arguments shape device dtype = true)
  /\ (shape = None -> r = Raise TypeError)
  /\ (shape <> None -> valid_arguments shape device dtype = false ->
      r = Raise CheckError).
Proof.
  intros Hf r. subst r.
  unfold TensorProxy___init__.
  rewrite (bind_Proxy_init_named _ (mkWorld (Some trace) lctx) trace name
             eq_refl Hf).
  unfold bind, lift, ret, throw, valid_arguments, check_valid_shape,
    check_type, if_not_None. simpl.
  destruct shape as [s|]; simpl; [|validation_fails].
  destruct (forallb (fun l => 0 <=? l) s); simpl; [|validation_fails].
  pose proof (fun o => proj1 (isinstance_catalog o)) as Hdev.
  pose proof (fun o => proj1 (proj2 (isinstance_catalog o))) as Hdt.
  destruct device; simpl; rewrite ?Hdev; simpl; try validation_fails.
  destruct dtype as [| | ? | ? | ? ? | c | ? | dt | ? | ? | ? | ? | ? | ?];
    simpl; rewrite ?Hdt; simpl; try validation_fails.
  - destruct c; simpl; first [validation_succeeds | validation_fails].
  - validation_succeeds.
Qed.

(** ** Dtypes and [like] *)

(** X5.  The dtype of every constructed TensorProxy is the strong form of
    its true dtype.  A number type given as dtype is converted to its
    dtype, which becomes the true dtype.  A TensorProxy built from [like]
    takes the shape, the device and the true dtype (not the dtype) of
    [like], each replaced by the argument of that name when one is
    given. *)
Theorem TensorProxy_like_and_dtype :
  (forall t : TensorProxy,
      constructed_tensor t -> tp_dtype t = to_strong_dtype (tp_true_dtype t))
  /\ (forall (name : option string) (shape : option (list Z)) (device : obj)
             (c : cls) (w w' : World) (t : TensorProxy),
        is_numbertype (OClass c) = true ->
        TensorProxy___init__ name ONone shape device (OClass c) w = (Ok t, w') ->
        tp_true_dtype t = numbertype_to_dtype c)
  /\ (forall (name : option string) (like : TensorProxy)
             (shape : option (list Z)) (device dtype : obj) (w w' : World)
             (t : TensorProxy),
        TensorProxy___init__ name (OTensorProxy like) shape device dtype w
        = (Ok t, w') ->
        tp_shape t = match shape with
                     | Some s => s
                     | None => tp_shape like
                     end
        /\ ODevice (tp_device t)
           = if_not_None device (ODevice (tp_device like))
        /\ ODType (tp_true_dtype t)
           = convert_numbertype
               (if_not_None dtype (ODType (tp_true_dtype like)))).
Proof.
  split; [|split].
  - intros t (name & like & shape & device & dtype & w & w' & H).
    apply TensorProxy_init_Ok in H. tauto.
  - intros name shape device c w w' t Hc H.
    unfold TensorProxy___init__ in H.
    apply bind_Ok in H. destruct H as (n & w1 & _ & H).
    unfold bind, lift, ret, throw in H.
    destruct c; try discriminate Hc; simpl in H;
      (destruct shape as [s|]; [|discriminate]);
      (destruct (check_valid_shape s); [|discriminate]);
      (destruct (check_type (if_not_None device ONone) [c_Device]);
       [|discriminate]);
      (destruct (if_not_None device ONone); try discriminate);
      injection H as <- _; reflexivity.
  - intros name like shape device dtype w w' t H.
    unfold TensorProxy___init__ in H.
    apply bind_Ok in H. destruct H as (n & w1 & _ & H).
    unfold bind, lift, ret, throw in H. simpl in H.
    unfold py_tuple in H.
    destruct (match shape with Some s => Some s | None => _ end) as [s|] eqn:Hs;
      [|discriminate].
    destruct (check_valid_shape s); [|discriminate].
    destruct (check_type _ [c_Device]); [|discriminate].
    destruct (check_type _ [c_dtype]); [|discriminate].
    destruct (if_not_None device _) eqn:Hd; try discriminate.
    destruct (convert_numbertype _) eqn:Hdt; try discriminate.
    injection H as <- _. simpl.
    split; [|split; reflexivity].
    destruct shape; injection Hs as <-; reflexivity.
Qed.

(** ** What the number proxy constructors record *)

(** X6.  [numberproxy] uses the requested class only to choose the proxy
    class.  The python type of the IntegerProxy that it returns for [int]
    or [bool] is [bool] exactly when the value is a bool, whichever of the
    two was requested, and [int] for an unknown value; a FloatProxy records
    [float] whatever the value.  The value is stored as given. *)
Theorem numberproxy_python_type (cls : cls) (value : option number)
    (w w' : World) (p : NumberProxy) :
  numberproxy cls value w = (Ok p, w') ->
  np_value p = value
  /\ (cls = c_float /\ np_class p = k_FloatProxy /\ np_python_type p = c_float
      \/ (cls = c_int \/ cls = c_bool)
         /\ np_class p = k_IntegerProxy
         /\ np_python_type p
            = match value with
              | Some (Bool _) => c_bool
              | _ => c_int
              end).
Proof.
  intros H. unfold numberproxy in H.
  apply bind_Ok in H. destruct H as (pcls & w1 & Hl & H).
  apply lift_Ok in Hl. destruct Hl as [Hl ->].
  destruct cls; try discriminate; simpl in Hl; injection Hl as <-;
    simpl in H; apply (new_variant_Ok None value w w' p) in H;
    destruct H as (n & numeral & _ & ->); simpl; (split; [reflexivity|]).
  - right. split; [auto|]. split; [reflexivity|].
    destruct value as [[]|]; reflexivity.
  - right. split; [auto|]. split; [reflexivity|].
    destruct value as [[]|]; reflexivity.
  - left. auto.
Qed.

(** X7.  The numeral inside a constructed variant: for an unknown value it
    is the marker of the class (-9999, NaN, NaN+NaNj), and [known_value] is
    false; for a value of the proxy's own kind it is the value; an
    IntegerProxy holds a bool as 0 or 1.  So the IntegerProxy of an unknown
    value and the IntegerProxy of the value -9999 hold the same numeral and
    differ in [known_value]. *)
Theorem numeral_of_constructed (name : option string) (value : option number)
    (w w' : World) (p : NumberProxy) :
  new_ComplexProxy name value w = (Ok p, w')
  \/ new_IntegerProxy name value w = (Ok p, w')
  \/ new_FloatProxy name value w = (Ok p, w') ->
  (known_value p = false <-> value = None)
  /\ (value = None ->
      np_numeral p
      = Some (match np_class p with
              | k_IntegerProxy => Int (-9999)
              | k_FloatProxy => Float float_nan
              | _ => Complex float_nan float_nan
              end))
  /\ (forall z, value = Some (Int z) -> np_class p = k_IntegerProxy ->
        np_numeral p = Some (Int z))
  /\ (forall b, value = Some (Bool b) -> np_class p = k_IntegerProxy ->
        np_numeral p = Some (Int (Z.b2z b)))
  /\ (forall f, value = Some (Float f) -> np_class p = k_FloatProxy ->
        np_numeral p = value)
  /\ (forall re im, value = Some (Complex re im) ->
        np_class p = k_ComplexProxy -> np_numeral p = value).
Proof.
  intros H.
  assert (Hp : exists n numeral,
             (ComplexProxy___new__ value = Ok numeral
              /\ p = mkNumberProxy k_ComplexProxy n value c_complex
                       (Some numeral))
             \/ (IntegerProxy___new__ value = Ok numeral
                 /\ p = mkNumberProxy k_IntegerProxy n value
                          (if isinstance (obj_of_value value) c_bool
                           then c_bool else c_int) (Some numeral))
             \/ (FloatProxy___new__ value = Ok numeral
                 /\ p = mkNumberProxy k_FloatProxy n value c_float
                          (Some numeral))).
  { destruct H as [H|[H|H]]; apply (new_variant_Ok name value w w' p) in H;
      destruct H as (n & numeral & Hn & Hp); exists n, numeral; auto. }
  destruct Hp as (n & numeral & [[Hn ->]|[[Hn ->]|[Hn ->]]]);
    unfold known_value; simpl;
    (split; [destruct value; split; congruence|]);
    repeat split; intros; subst; try discriminate; simpl in Hn;
    try (injection Hn as <-; reflexivity).
Qed.

(** ** Renaming to a registered name *)

(** X8.  [replace_name] never frees a name: on a constructed proxy and for
    a name that is registered in the active trace (the proxy's own name, or
    the name it had before an earlier renaming) it fails with
    DuplicateNameError and leaves the world as it was.  With no active
    trace it fails with NoActiveTraceError. *)
Theorem replace_name_registered (o : obj) (name : string) (w : World) :
  (exists p, o = OProxy p)
  \/ (exists p, o = ONumberProxy p /\ constructed_number p)
  \/ (exists t, o = OTensorProxy t) ->
  (forall trace,
      tracectx w = Some trace ->
      mem_string name (names trace) = true ->
      replace_name o name w = (Raise DuplicateNameError, w))
  /\ (tracectx w = None ->
      replace_name o name w = (Raise NoActiveTraceError, w)).
Proof.
  intros Ho.
  assert (Hinit : forall e,
             Proxy___init__ (Some name) w = (Raise e, w) ->
             replace_name o name w = (Raise e, w)).
  { intros e Hi. destruct Ho as [(p & ->)|[(p & -> & Hc)|(t & ->)]]; simpl.
    - unfold Proxy_replace_name, new_Proxy, bind. rewrite Hi. reflexivity.
    - destruct Hc as (nm & value & pt & w0 & w1 & [H|[H|[H|H]]]).
      + apply NumberProxy_init_Ok in H. destruct H as [n ->]. simpl.
        unfold NumberProxy_replace_name, new_NumberProxy,
          NumberProxy___init__, bind. simpl. rewrite Hi. reflexivity.
      + apply new_variant_Ok in H. destruct H as (n & numeral & Hn & ->).
        simpl. unfold ComplexProxy_replace_name, new_ComplexProxy,
                 NumberProxy___init__, bind, lift. simpl.
        rewrite Hn, Hi. reflexivity.
      + apply new_variant_Ok in H. destruct H as (n & numeral & Hn & ->).
        simpl. unfold IntegerProxy_replace_name, new_IntegerProxy,
                 NumberProxy___init__, bind, lift. simpl.
        rewrite Hn, Hi. reflexivity.
      + apply new_variant_Ok in H. destruct H as (n & numeral & Hn & ->).
        simpl. unfold FloatProxy_replace_name, new_FloatProxy,
                 NumberProxy___init__, bind, lift. simpl.
        rewrite Hn, Hi. reflexivity.
    - unfold TensorProxy_replace_name, TensorProxy___init__, bind.
      rewrite Hi. reflexivity. }
  split.
  - intros trace Ht Hm. apply Hinit.
    destruct w as [tr lctx]. simpl in Ht. subst tr.
    unfold Proxy___init__, bind, get_tracectx, lift, add_name. simpl.
    rewrite Hm. reflexivity.
  - intros Ht. apply Hinit.
    destruct w as [tr lctx]. simpl in Ht. subst tr. reflexivity.
Qed.

(** ** Unary operators of the number proxies *)

Lemma pyval_known (p : NumberProxy) (a : number) :
  np_value p = Some a -> pyval (ONumberProxy p) = Ok (ONum a).
Proof. intros H. destruct p as [[] ? ? ? ?]; simpl in H; subst; reflexivity. Qed.

Lemma pyval_unknown (p : NumberProxy) :
  np_value p = None -> pyval (ONumberProxy p) = Ok ONone.
Proof. intros H. destruct p as [[] ? ? ? ?]; simpl in H; subst; reflexivity. Qed.

Lemma unary_method_without_context (k : number_proxy_class) (u : unary_dunder)
    (self : obj) (trace : option TraceCtx) :
  k <> k_NumberProxy ->
  unary_method k u self (mkWorld trace None)
  = native_unary u self (mkWorld trace None).
Proof. intros Hk. destruct k, u; try reflexivity; contradiction. Qed.

Lemma unary_method_with_context (k : number_proxy_class) (u : unary_dunder)
    (self : obj) (trace : option TraceCtx) (ctx : LangCtx) :
  k <> k_NumberProxy ->
  unary_method k u self (mkWorld trace (Some ctx))
  = call_ctx1 (context_unary ctx u) self (mkWorld trace (Some ctx)).
Proof. intros Hk. destruct k, u; try reflexivity; contradiction. Qed.

(** X9.  Each of the seven unary methods of an IntegerProxy, FloatProxy or
    ComplexProxy returns, with a language context active, what the
    context's method of the same name returns on the proxy itself.  With no
    context it returns the result of the value's own method and leaves the
    world as it is: on an integer value [abs], [invert] and [neg] give
    [|z|], [-z-1] and [-z], and [ceil], [floor], [round] and [trunc] give
    [z] itself; [invert] of a float value, and [ceil], [floor], [invert],
    [round] and [trunc] of a complex value, fail with AttributeError. *)
Theorem unary_operator_dispatch (p : NumberProxy) (u : unary_dunder)
    (trace : option TraceCtx) :
  np_class p <> k_NumberProxy ->
  (forall ctx : LangCtx,
      unary_method (np_class p) u (ONumberProxy p) (mkWorld trace (Some ctx))
      = call_ctx1 (context_unary ctx u) (ONumberProxy p)
          (mkWorld trace (Some ctx)))
  /\ (forall a : number,
        np_value p = Some a ->
        unary_method (np_class p) u (ONumberProxy p) (mkWorld trace None)
        = (value_unary u (ONum a), mkWorld trace None))
  /\ (forall z : Z,
        np_value p = Some (Int z) ->
        fst (unary_method (np_class p) u (ONumberProxy p)
               (mkWorld trace None))
        = Ok (ONum (Int (match u with
                         | __abs__ => Z.abs z
                         | __invert__ => - z - 1
                         | __neg__ => - z
                         | _ => z
                         end))))
  /\ (forall (a : number),
        np_value p = Some a ->
        match a, u with
        | Float _, __invert__ => True
        | Complex _ _, (__ceil__ | __floor__ | __invert__ | __round__
                        | __trunc__) => True
        | _, _ => False
        end ->
        fst (unary_method (np_class p) u (ONumberProxy p)
               (mkWorld trace None))
        = Raise AttributeError).
Proof.
  intros Hk.
  assert (Hnative : forall a, np_value p = Some a ->
            unary_method (np_class p) u (ONumberProxy p) (mkWorld trace None)
            = (value_unary u (ONum a), mkWorld trace None)).
  { intros a Ha. rewrite unary_method_without_context by exact Hk.
    unfold native_unary, bind, lift. rewrite (pyval_known p a Ha).
    reflexivity. }
  split; [|split; [|split]].
  - intros ctx. apply unary_method_with_context. exact Hk.
  - exact Hnative.
  - intros z Ha. rewrite (Hnative _ Ha). simpl.
    destruct u; reflexivity.
  - intros a Ha Hcase. rewrite (Hnative _ Ha).
    destruct a, u; simpl in *; try contradiction; reflexivity.
Qed.

(** ** Operating on an unknown value *)

Lemma py_operator_None (op : binop) (v : obj) :
  v = ONone \/ (exists n : number, v = ONum n) ->
  py_operator op ONone v = Raise TypeError
  /\ py_operator op v ONone = Raise TypeError.
Proof.
  intros [->|[n ->]]; unfold py_operator, slot, value_method.
  - destruct op; split; reflexivity.
  - destruct op, n; split; reflexivity.
Qed.

(** X10.  With no language context active, every binary and every unary
    method of a number proxy whose value is unknown raises, whatever the
    other operand: the marker numeral never stands in for the value.  The
    unary methods, and the binary ones that call the value's method, fail
    with AttributeError. *)
Theorem unknown_value_raises (p : NumberProxy) (trace : option TraceCtx) :
  np_class p <> k_NumberProxy ->
  np_value p = None ->
  (forall (d : dunder) (other : obj),
      exists e : exn,
        binary_method (np_class p) d (ONumberProxy p) other
          (mkWorld trace None)
        = (Raise e, mkWorld trace None)
        /\ (operator_form d = false -> e = AttributeError))
  /\ (forall u : unary_dunder,
        unary_method (np_class p) u (ONumberProxy p) (mkWorld trace None)
        = (Raise AttributeError, mkWorld trace None)).
Proof.
  intros Hk Hv. pose proof (pyval_unknown p Hv) as Hself. split.
  - intros d other.
    rewrite binary_method_without_context by exact Hk.
    destruct (operator_form d) eqn:Hform.
    + unfold native_operator, bind, lift.
      destruct (reflected d); rewrite Hself;
        destruct (pyval other) as [v|e] eqn:Ho;
        try (exists e; split; [reflexivity | discriminate]);
        exists TypeError; (split; [|discriminate]);
        destruct (py_operator_None (op_of d) v (pyval_native other v Ho))
          as [H1 H2]; rewrite ?H1, ?H2; reflexivity.
    + exists AttributeError. split; [|reflexivity].
      unfold native_method, bind, lift. rewrite Hself. reflexivity.
  - intros u. rewrite unary_method_without_context by exact Hk.
    unfold native_unary, bind, lift. rewrite Hself. reflexivity.
Qed.

(** ** Operators and the world *)

Lemma lift_keeps_world {A : Type} (r : Res A) (w : World) :
  snd (lift r w) = w.
Proof. reflexivity. Qed.

Lemma native_keeps_world (w : World) (x y : obj) :
  (forall op, snd (native_operator op x y w) = w)
  /\ (forall d, snd (native_method d x y w) = w)
  /\ (forall u, snd (native_unary u x w) = w).
Proof.
  repeat split; intros;
    unfold native_operator, native_method, native_unary, bind, lift;
    repeat match goal with
           | |- context [match ?r with Ok _ => _ | Raise _ => _ end] =>
               destruct r; simpl
           end; reflexivity.
Qed.

(** X11.  With no language context active, no operator method of a number
    proxy touches the world: the binary and unary methods, matrix
    multiplication and unary plus return or raise and leave the trace, and
    so the registered names, as they were. *)
Theorem operators_keep_world_without_context (k : number_proxy_class)
    (self other : obj) (w : World) :
  langctx w = None ->
  (forall d, snd (binary_method k d self other w) = w)
  /\ (forall u, snd (unary_method k u self w) = w)
  /\ (forall r, snd (matmul_method k r self other w) = w)
  /\ snd (pos_method k self w) = w.
Proof.
  destruct w as [trace lctx]. simpl. intros ->.
  destruct (native_keeps_world (mkWorld trace None) self other)
    as (Hop & Hm & Hu).
  destruct (native_keeps_world (mkWorld trace None) other self)
    as (Hop' & _ & _).
  repeat split.
  - intros d. destruct k; try reflexivity;
      (rewrite binary_method_without_context by discriminate;
       destruct (operator_form d); [destruct (reflected d)|]; auto).
  - intros u. destruct k; try reflexivity;
      (rewrite unary_method_without_context by discriminate; auto).
  - intros r. destruct k, r; reflexivity.
  - destruct k; reflexivity.
Qed.

(** ** Reflected and forward methods *)

Lemma same_rank_has_method (a b : number) (op : binop) :
  rank a = rank b ->
  has_method a (reflected_of op) = has_method b (forward_of op).
Proof. destruct a, b, op; simpl; intros H; try discriminate; reflexivity. Qed.

Lemma op_of_directions (op : binop) :
  op_of (forward_of op) = op /\ op_of (reflected_of op) = op
  /\ reflected (forward_of op) = false /\ reflected (reflected_of op) = true
  /\ operator_form (forward_of op) = operator_form (reflected_of op).
Proof. destruct op; repeat split. Qed.

(** X12.  The reflected method of one number proxy agrees with the forward
    method of the other operand.  With a language context active,
    [p.__rop__(q)] and [q.__op__(p)] are the same call of the context, for
    any two operands and any two variants.  With no context and two known
    values of the same numeric kind, both return the same native result
    [b op a]. *)
Theorem reflected_agrees_with_forward (op : binop) (trace : option TraceCtx) :
  (forall (k1 k2 : number_proxy_class) (p q : obj) (ctx : LangCtx),
      k1 <> k_NumberProxy -> k2 <> k_NumberProxy ->
      binary_method k1 (reflected_of op) p q (mkWorld trace (Some ctx))
      = binary_method k2 (forward_of op) q p (mkWorld trace (Some ctx)))
  /\ (forall (p q : NumberProxy) (a b : number),
        np_class p <> k_NumberProxy -> np_class q <> k_NumberProxy ->
        np_value p = Some a -> np_value q = Some b ->
        rank a = rank b ->
        has_method a (reflected_of op) = true ->
        binary_method (np_class p) (reflected_of op) (ONumberProxy p)
          (ONumberProxy q) (mkWorld trace None)
        = binary_method (np_class q) (forward_of op) (ONumberProxy q)
            (ONumberProxy p) (mkWorld trace None)
        /\ fst (binary_method (np_class p) (reflected_of op) (ONumberProxy p)
                  (ONumberProxy q) (mkWorld trace None))
           = py_operator op (ONum b) (ONum a)).
Proof.
  destruct (op_of_directions op) as (Hf & Hr & Hff & Hrr & Hform).
  split.
  - intros k1 k2 p q ctx H1 H2.
    rewrite !binary_method_with_context by assumption.
    rewrite Hf, Hr, Hff, Hrr. reflexivity.
  - intros p q a b Hp Hq Ha Hb Hrank Hm.
    rewrite !binary_method_without_context by assumption.
    rewrite <- Hform, Hff, Hrr, Hf, Hr.
    pose proof (pyval_known p a Ha) as Hpa.
    pose proof (pyval_known q b Hb) as Hqb.
    destruct (operator_form (forward_of op)).
    + split; [reflexivity|].
      unfold native_operator, bind, lift. rewrite Hqb, Hpa. reflexivity.
    + assert (Hm' : has_method b (forward_of op) = true).
      { rewrite <- (same_rank_has_method a b op Hrank). exact Hm. }
      assert (Hr1 : (rank b <=? rank a)%nat = true).
      { rewrite Hrank. apply Nat.leb_refl. }
      assert (Hr2 : (rank a <=? rank b)%nat = true).
      { rewrite Hrank. apply Nat.leb_refl. }
      destruct (value_method_is_operator (reflected_of op) a b Hm Hr1)
        as [Hg1 Hc1].
      destruct (value_method_is_operator (forward_of op) b a Hm' Hr2)
        as [Hg2 Hc2].
      unfold native_operation in Hc1, Hc2.
      rewrite Hr, Hrr in Hc1. rewrite Hf, Hff in Hc2.
      unfold native_method, bind, lift.
      rewrite Hpa, Hqb, Hg1, Hg2, Hc1, Hc2. split; reflexivity.
Qed.

(** ** Operators of the tensor proxies *)

(** X13.  A TensorProxy has no native fallback.  With a language context
    active, each binary method (arithmetic, shift, comparison, logical,
    matrix multiplication) returns what the context's method of that name
    returns on the operands, the other operand first for a reflected
    method, and each unary method, [size] and indexing return what the
    context returns; [==] in particular returns the context's result and
    not a truth value of its own.  With no context every one of them fails
    with AttributeError and leaves the world as it is. *)
Theorem TensorProxy_operator_dispatch (self other : obj)
    (trace : option TraceCtx) :
  (forall (ctx : LangCtx) (d : tensor_dunder),
      TensorProxy_binary d self other (mkWorld trace (Some ctx))
      = call_ctx (tensor_context_method ctx d)
          (if tensor_reflected d then other else self)
          (if tensor_reflected d then self else other)
          (mkWorld trace (Some ctx)))
  /\ (forall (ctx : LangCtx) (u : unary_dunder),
        TensorProxy_unary u self (mkWorld trace (Some ctx))
        = call_ctx1 (context_unary ctx u) self (mkWorld trace (Some ctx)))
  /\ (forall ctx : LangCtx,
        TensorProxy_size self (mkWorld trace (Some ctx))
        = call_ctx1 (lc_size (methods_of ctx)) self (mkWorld trace (Some ctx))
        /\ TensorProxy___getitem__ self other (mkWorld trace (Some ctx))
           = call_ctx (lc_get_item (methods_of ctx)) self other
               (mkWorld trace (Some ctx)))
  /\ (forall (d : tensor_dunder) (u : unary_dunder),
        let w := mkWorld trace None in
        TensorProxy_binary d self other w = (Raise AttributeError, w)
        /\ TensorProxy_unary u self w = (Raise AttributeError, w)
        /\ TensorProxy_size self w = (Raise AttributeError, w)
        /\ TensorProxy___getitem__ self other w = (Raise AttributeError, w)).
Proof.
  split; [|split; [|split]].
  - intros ctx [[]| | | | | | | | | | | | | |]; reflexivity.
  - intros ctx []; reflexivity.
  - intros ctx. split; reflexivity.
  - intros d u. repeat split.
Qed.

(** X14.  Looking up an attribute that a TensorProxy does not have asks the
    active language context for a method of that name.  If the context has
    none, or if no context is active, the lookup fails with AttributeError
    and the world is left as it is; otherwise it returns the method bound
    to the proxy: calling the result on arguments calls the context's
    method on the proxy followed by the arguments. *)
Theorem TensorProxy_getattr (self : obj) (attr : string)
    (trace : option TraceCtx) :
  TensorProxy___getattr__ self attr (mkWorld trace None)
  = (Raise AttributeError, mkWorld trace None)
  /\ (forall ctx : LangCtx,
        let w := mkWorld trace (Some ctx) in
        (lc_method_lookup (methods_of ctx) attr = None ->
         TensorProxy___getattr__ self attr w = (Raise AttributeError, w))
        /\ (forall method : ctx_nary,
              lc_method_lookup (methods_of ctx) attr = Some method ->
              exists bound : ctx_nary,
                TensorProxy___getattr__ self attr w = (Ok bound, w)
                /\ forall (args : list obj) (w1 : World),
                     call_ctxn bound args w1
                     = call_ctxn method (self :: args) w1)).
Proof.
  split; [reflexivity|].
  intros ctx w. subst w. split.
  - intros H. unfold TensorProxy___getattr__, bind, get_langctx. simpl.
    rewrite H. reflexivity.
  - intros method H. exists (partial method self). split.
    + unfold TensorProxy___getattr__, bind, get_langctx. simpl.
      rewrite H. reflexivity.
    + reflexivity.
Qed.

(** ** Variables over other values *)

(** X15.  A Variable is only usable when it wraps a proxy.  On a Variable
    that wraps a value without a name, [hash] and the comparison with any
    other Variable fail with AttributeError, while the comparison with a
    value that is not a Variable is still False.  [variableify] never
    builds such a Variable: a Variable it returns is its own argument or
    wraps the argument, which then has a name. *)
Theorem Variable_of_other_values (x : obj) :
  (getattr_name x = Raise AttributeError ->
   py_hash (new_Variable x) = Raise AttributeError
   /\ (forall y, Variable___eq__ (new_Variable x) (new_Variable y)
                 = Raise AttributeError
                 /\ Variable___eq__ (new_Variable y) (new_Variable x)
                    = Raise AttributeError)
   /\ (forall o, isinstance o c_Variable = false ->
         Variable___eq__ (new_Variable x) o = Ok (ONum (Bool false))))
  /\ (forall y, variableify x = OVariable y ->
        x = OVariable y \/ (y = x /\ exists n, getattr_name x = Ok n)).
Proof.
  split.
  - intros Hx. split; [|split].
    + unfold py_hash, new_Variable. simpl. rewrite Hx. reflexivity.
    + intros y. unfold Variable___eq__, new_Variable.
      rewrite !isinstance_Variable_wrapper, Hx.
      assert (Hy : getattr_name y = Raise AttributeError
                   \/ exists n, getattr_name y = Ok n).
      { destruct y; simpl; eauto. }
      destruct Hy as [->|[n ->]]; split; reflexivity.
    + intros o Ho. unfold Variable___eq__. rewrite Ho. reflexivity.
  - intros y. unfold variableify, new_Variable.
    destruct (isinstance x c_ProxyInterface) eqn:Hp.
    + intros H. injection H as <-. right. split; [reflexivity|].
      destruct x as [| | [] | | | | | | | | | | |]; try discriminate Hp;
        simpl; eauto.
    + intros ->. left. reflexivity.
Qed.

(** ** Integer proxies without a language context *)

Lemma IntegerProxy_native (p : NumberProxy) (d : dunder) (other : obj)
    (x y : Z) (trace : option TraceCtx) :
  np_value p = Some (Int x) ->
  pyval other = Ok (ONum (Int y)) ->
  binary_method k_IntegerProxy d (ONumberProxy p) other (mkWorld trace None)
  = (match (if reflected d then int_arith (op_of d) y x
            else int_arith (op_of d) x y) with
     | Ok r => Ok (obj_of_numres r)
     | Raise e => Raise e
     end, mkWorld trace None).
Proof.
  intros Hp Ho. pose proof (pyval_known p (Int x) Hp) as Hself.
  rewrite binary_method_without_context by discriminate.
  destruct d; simpl;
    unfold native_operator, native_method, bind, lift;
    rewrite ?Hself, ?Ho; simpl; rewrite ?Ho; reflexivity.
Qed.

(** X16.  An IntegerProxy with a known integer value [x], operated with an
    integer [y] (a native one or the known value of a proxy) and no language
    context, behaves as Python integers do at the edges: floor division,
    modulo, divmod and true division by zero raise ZeroDivisionError, in
    the reflected methods when [x] itself is zero; a shift by a negative
    count raises ValueError; and for [y] other than zero [divmod] returns
    the pair of the results of floor division and modulo, [(q, r)] with
    [x = q*y + r] and [r] between zero and [y]. *)
Theorem IntegerProxy_edges (p : NumberProxy) (other : obj) (x y : Z)
    (trace : option TraceCtx) :
  np_value p = Some (Int x) ->
  pyval other = Ok (ONum (Int y)) ->
  let run d :=
    fst (binary_method k_IntegerProxy d (ONumberProxy p) other
           (mkWorld trace None)) in
  (y = 0 ->
   run __floordiv__ = Raise ZeroDivisionError
   /\ run __mod__ = Raise ZeroDivisionError
   /\ run __divmod__ = Raise ZeroDivisionError
   /\ run __truediv__ = Raise ZeroDivisionError)
  /\ (x = 0 ->
      run __rfloordiv__ = Raise ZeroDivisionError
      /\ run __rmod__ = Raise ZeroDivisionError
      /\ run __rdivmod__ = Raise ZeroDivisionError
      /\ run __rtruediv__ = Raise ZeroDivisionError)
  /\ (y < 0 ->
      run __lshift__ = Raise ValueError /\ run __rshift__ = Raise ValueError)
  /\ (y <> 0 ->
      exists q r : Z,
        run __floordiv__ = Ok (ONum (Int q))
        /\ run __mod__ = Ok (ONum (Int r))
        /\ run __divmod__ = Ok (OPair (ONum (Int q)) (ONum (Int r)))
        /\ x = q * y + r
        /\ (0 < y -> 0 <= r < y) /\ (y < 0 -> y < r <= 0)).
Proof.
  intros Hp Ho run. subst run.
  split; [|split; [|split]].
  - intros ->. rewrite !(IntegerProxy_native p _ other x 0 trace Hp Ho).
    repeat split.
  - intros ->. rewrite !(IntegerProxy_native p _ other 0 y trace Hp Ho).
    repeat split.
  - intros Hy. rewrite !(IntegerProxy_native p _ other x y trace Hp Ho).
    simpl. apply Z.ltb_lt in Hy. rewrite Hy. split; reflexivity.
  - intros Hy. rewrite !(IntegerProxy_native p _ other x y trace Hp Ho).
    simpl. apply Z.eqb_neq in Hy. rewrite Hy. simpl.
    apply Z.eqb_neq in Hy.
    exists (x / y), (x mod y). repeat split; try reflexivity.
    + rewrite Z.mul_comm. apply Z.div_mod. exact Hy.
    + apply Z.mod_pos_bound. assumption.
    + apply Z.mod_pos_bound. assumption.
    + apply Z.mod_neg_bound. assumption.
    + apply Z.mod_neg_bound. assumption.
Qed.

(** ** Float proxies without a language context *)

Lemma shiftl_bounds (n e : Z) :
  e < 0 ->
  Z.shiftl n e * 2 ^ (- e) <= n < (Z.shiftl n e + 1) * 2 ^ (- e).
Proof.
  intros He. rewrite Z.shiftl_div_pow2 by lia.
  assert (Hp : 0 < 2 ^ (- e)) by (apply Z.pow_pos_nonneg; lia).
  pose proof (Z.div_mod n (2 ^ (- e)) ltac:(lia)) as Hdm.
  pose proof (Z.mod_pos_bound n (2 ^ (- e)) Hp) as Hb.
  nia.
Qed.

Lemma finite_rounding (s : bool) (m : positive) (e : Z) :
  let fl := finite_floor s m e in
  let ce := finite_ceil s m e in
  let ro := finite_round s m e in
  let tr := cond_Zopp s (Z.shiftl (Zpos m) e) in
  fl <= ro <= ce /\ fl <= tr <= ce /\ ce <= fl + 1
  /\ (s = false -> tr = fl) /\ (s = true -> tr = ce).
Proof.
  unfold finite_floor, finite_ceil, finite_round.
  destruct (Z.leb_spec 0 e) as [He|He].
  - rewrite !Z.shiftl_mul_pow2 by exact He.
    generalize (2 ^ e). intros P. generalize (Zpos m). intros N.
    destruct s; unfold cond_Zopp; repeat split; intros; try discriminate;
      nia.
  - set (P := 2 ^ (- e)).
    assert (HP : 0 < P) by (apply Z.pow_pos_nonneg; lia).
    set (n := cond_Zopp s (Zpos m)).
    pose proof (shiftl_bounds n e He) as Hq.
    pose proof (shiftl_bounds (- n) e He) as Hc.
    pose proof (shiftl_bounds (Zpos m) e He) as Hm.
    fold P in Hq, Hc, Hm.
    set (q := Z.shiftl n e) in *.
    set (c := Z.shiftl (- n) e) in *.
    set (t := Z.shiftl (Zpos m) e) in *.
    assert (Hqc : q <= - c <= q + 1) by nia.
    assert (Hro : q <= (match 2 * (n - q * P) ?= P with
                        | Eq => if Z.even q then q else q + 1
                        | Lt => q
                        | Gt => q + 1
                        end) <= - c).
    { destruct (Z.compare_spec (2 * (n - q * P)) P) as [H|H|H].
      - destruct (Z.even q); nia.
      - lia.
      - nia. }
    assert (Htr : (s = false -> cond_Zopp s t = q)
                  /\ (s = true -> cond_Zopp s t = - c)).
    { subst n q c t. destruct s; unfold cond_Zopp; split; intros;
        try discriminate; rewrite ?Z.opp_involutive; reflexivity. }
    destruct Htr as [Ht1 Ht2].
    repeat split; try lia; try assumption;
      destruct s; rewrite ?(Ht1 eq_refl), ?(Ht2 eq_refl); lia.
Qed.

(** X17.  A FloatProxy with a known float value and no language context:
    [abs] and [neg] always return a float; [ceil], [floor], [round] and
    [trunc] raise ValueError on NaN and OverflowError on an infinity, and
    on every other value return integers with
    [floor <= round <= ceil], [floor <= trunc <= ceil] and
    [ceil <= floor + 1]; [invert] fails with AttributeError. *)
Theorem FloatProxy_unary_edges (p : NumberProxy) (f : pyfloat)
    (trace : option TraceCtx) :
  np_value p = Some (Float f) ->
  let run u :=
    fst (unary_method k_FloatProxy u (ONumberProxy p) (mkWorld trace None)) in
  (exists g h, run __abs__ = Ok (ONum (Float g))
               /\ run __neg__ = Ok (ONum (Float h)))
  /\ run __invert__ = Raise AttributeError
  /\ (f = S754_nan ->
      run __ceil__ = Raise ValueError /\ run __floor__ = Raise ValueError
      /\ run __round__ = Raise ValueError /\ run __trunc__ = Raise ValueError)
  /\ (forall s, f = S754_infinity s ->
        run __ceil__ = Raise OverflowError
        /\ run __floor__ = Raise OverflowError
        /\ run __round__ = Raise OverflowError
        /\ run __trunc__ = Raise OverflowError)
  /\ (f <> S754_nan -> (forall s, f <> S754_infinity s) ->
      exists ce fl ro tr : Z,
        run __ceil__ = Ok (ONum (Int ce)) /\ run __floor__ = Ok (ONum (Int fl))
        /\ run __round__ = Ok (ONum (Int ro))
        /\ run __trunc__ = Ok (ONum (Int tr))
        /\ fl <= ro <= ce /\ fl <= tr <= ce /\ ce <= fl + 1).
Proof.
  intros Hp run.
  assert (Hrun : forall u, run u = value_unary u (ONum (Float f))).
  { intros u. subst run. cbv beta.
    rewrite unary_method_without_context by discriminate.
    unfold native_unary, bind, lift.
    rewrite (pyval_known p (Float f) Hp). reflexivity. }
  rewrite !Hrun. clear Hrun run. unfold value_unary.
  split; [eauto|]. split; [reflexivity|].
  split; [intros ->; repeat split|].
  split; [intros s ->; repeat split|].
  intros Hnan Hinf. destruct f as [s|s| |s m e].
  - exists 0, 0, 0, 0. simpl. repeat split; lia.
  - exfalso. apply (Hinf s). reflexivity.
  - exfalso. apply Hnan. reflexivity.
  - destruct (finite_rounding s m e) as (H1 & H2 & H3 & _).
    eexists _, _, _, _. simpl.
    repeat split; try apply H1; try apply H2; exact H3.
Qed.

End Proxies.

(** * Evaluations

    The properties above, applied to the sample objects under the sample
    runtime and package. *)

#[local] Existing Instance sample_runtime.
#[local] Existing Instance sample_package.

(** The sample objects are what the constructors return. *)
Example three_constructed :
  new_IntegerProxy None (Some (Int 3)) idle_world
  = (Ok three, mkWorld (Some (mkTraceCtx ["t0"])) None).
Proof. reflexivity. Qed.

Example five_constructed :
  new_IntegerProxy (Some "a") (Some (Int 5)) idle_world
  = (Ok five, mkWorld (Some (mkTraceCtx ["a"])) None).
Proof. reflexivity. Qed.

Example float_x_constructed :
  new_FloatProxy (Some "x") (Some (Float one_half)) idle_world
  = (Ok float_x, mkWorld (Some (mkTraceCtx ["x"])) None)
  /\ new_FloatProxy (Some "x") None idle_world
     = (Ok float_x', mkWorld (Some (mkTraceCtx ["x"])) None).
Proof. split; reflexivity. Qed.

Example tensor_2_3_constructed :
  TensorProxy___init__ None ONone (Some [2; 3]) (ODevice (device_ 0))
    (OClass c_float) idle_world
  = (Ok tensor_2_3, mkWorld (Some (mkTraceCtx ["t0"])) None).
Proof. reflexivity. Qed.

Lemma binary_operator_dispatch_witness :
  np_class three <> k_NumberProxy
  /\ binary_method k_IntegerProxy __add__ (ONumberProxy three)
       (ONumberProxy four) idle_world
     = (Ok (ONum (Int 7)), idle_world)
  /\ binary_method k_IntegerProxy __add__ (ONumberProxy three)
       (ONumberProxy four) tracing_world
     = (Ok (OPair (OStr "add")
              (OPair (ONumberProxy three) (ONumberProxy four))),
        tracing_world)
  /\ binary_method k_IntegerProxy __rsub__ (ONumberProxy three)
       (ONum (Int 10)) tracing_world
     = (Ok (OPair (OStr "sub") (OPair (ONum (Int 10)) (ONumberProxy three))),
        tracing_world)
  /\ binary_method k_IntegerProxy __rsub__ (ONumberProxy three)
       (ONum (Int 10)) idle_world
     = (Ok (ONum (Int 7)), idle_world)
  /\ applicable __sub__ (Int 3) (Float one_half) = false
  /\ fst (binary_method k_IntegerProxy __sub__ (ONumberProxy three)
            (ONum (Float one_half)) idle_world)
     = Ok ONotImplemented.
Proof.
  assert (Hk : np_class three <> k_NumberProxy) by discriminate.
  split; [exact Hk|].
  destruct (binary_operator_dispatch three __add__ (ONumberProxy four)
              (Some empty_trace) Hk) as [Hnative Hctx].
  destruct (binary_operator_dispatch three __rsub__ (ONum (Int 10))
              (Some empty_trace) Hk) as [Hnative' Hctx'].
  destruct (binary_operator_dispatch three __sub__ (ONum (Float one_half))
              (Some empty_trace) Hk) as [Hdeclined _].
  split; [exact (proj1 (Hnative (Int 3) (Int 4) eq_refl eq_refl) eq_refl)|].
  split; [exact (Hctx recording_ctx)|].
  split; [exact (Hctx' recording_ctx)|].
  split; [exact (proj1 (Hnative' (Int 3) (Int 10) eq_refl eq_refl) eq_refl)|].
  split; [reflexivity|].
  exact (proj2 (Hdeclined (Int 3) (Float one_half) eq_refl eq_refl) eq_refl).
Defined.

Lemma hashable_proxies_witness :
  plain_interfaces
  /\ py_hash (OProxy (mkProxy "p")) = Ok (native_hash (OProxy (mkProxy "p"))).
Proof.
  assert (H : plain_interfaces) by (split; reflexivity).
  split; [exact H|].
  exact (proj1 hashable_proxies H (mkProxy "p")).
Defined.

(** C2, against the claim as stated: the constructed tensor proxy has no
    hash. *)
Lemma TensorProxy_is_unhashable :
  ~ (exists h : Z, py_hash (OTensorProxy tensor_2_3) = Ok h).
Proof. intros [h H]. discriminate H. Qed.

(** C4, at the failing input: unary plus on the IntegerProxy that holds 3
    does not return the proxy, with or without a language context; reading
    [langctx] raises NameError. *)
Lemma unary_plus_of_IntegerProxy_raises :
  fst (IntegerProxy___pos__ (ONumberProxy three) idle_world)
  <> Ok (ONumberProxy three)
  /\ fst (IntegerProxy___pos__ (ONumberProxy three) idle_world)
     = Raise NameError
  /\ fst (IntegerProxy___pos__ (ONumberProxy three) tracing_world)
     = Raise NameError.
Proof. split; [discriminate | split; reflexivity]. Qed.

Lemma replace_name_preserves_witness :
  tracectx (mkWorld (Some (mkTraceCtx ["t0"])) None) = Some (mkTraceCtx ["t0"])
  /\ mem_string "y" (names (mkTraceCtx ["t0"])) = false
  /\ constructed_tensor tensor_2_3
  /\ replace_name (OTensorProxy tensor_2_3) "y"
       (mkWorld (Some (mkTraceCtx ["t0"])) None)
     = (Ok (OTensorProxy
              (mkTensorProxy "y" [2; 3] (device_ 0) (dtype_ 2) (dtype_ 102)
                 6 2)),
        mkWorld (Some (mkTraceCtx ["y"; "t0"])) None).
Proof.
  assert (Hc : constructed_tensor tensor_2_3).
  { exists None, ONone, (Some [2; 3]), (ODevice (device_ 0)), (OClass c_float),
      idle_world, (mkWorld (Some (mkTraceCtx ["t0"])) None).
    reflexivity. }
  split; [reflexivity|]. split; [reflexivity|]. split; [exact Hc|].
  destruct (replace_name_preserves (mkWorld (Some (mkTraceCtx ["t0"])) None)
              (mkTraceCtx ["t0"]) "y" eq_refl eq_refl) as (_ & _ & H).
  exact (H tensor_2_3 Hc).
Defined.

Lemma TensorProxy_numel_ndim_witness :
  exists (t : TensorProxy) (w' : World),
    TensorProxy___init__ None ONone (Some [2; 3; 4]) (ODevice (device_ 0))
      (ODType (dtype_ 1)) idle_world = (Ok t, w')
    /\ tp_numel t = 24 /\ tp_ndim t = 3.
Proof.
  eexists. eexists. split; [reflexivity|].
  destruct TensorProxy_numel_ndim as [H _].
  specialize (H None ONone (Some [2; 3; 4]) (ODevice (device_ 0))
                (ODType (dtype_ 1)) idle_world _ _ eq_refl).
  destruct H as (_ & _ & H & _). exact (H eq_refl).
Defined.

Lemma Variable_eq_hash_witness :
  getattr_name (ONumberProxy float_x) = Ok "x"
  /\ getattr_name (ONumberProxy float_x') = Ok "x"
  /\ Variable___eq__ (new_Variable (ONumberProxy float_x))
       (new_Variable (ONumberProxy float_x'))
     = Ok (ONum (Bool true))
  /\ py_hash (new_Variable (ONumberProxy float_x))
     = py_hash (new_Variable (ONumberProxy float_x')).
Proof.
  split; [reflexivity|]. split; [reflexivity|].
  destruct (Variable_eq_hash (ONumberProxy float_x) (ONumberProxy float_x')
              "x" "x" eq_refl eq_refl) as (H & _ & _ & _ & _ & Hh).
  split; [exact H | exact (Hh eq_refl)].
Defined.

Lemma NumberProxy_hash_is_value_hash_witness :
  new_IntegerProxy (Some "a") (Some (Int 5)) idle_world
  = (Ok five, mkWorld (Some (mkTraceCtx ["a"])) None)
  /\ py_hash (ONumberProxy five) = py_hash (ONum (Int 5)).
Proof.
  split; [reflexivity|].
  exact (proj2 NumberProxy_hash_is_value_hash idle_world _ five eq_refl).
Defined.

Lemma unvariableify_variableify_witness :
  isinstance (ONumberProxy three) c_Variable = false
  /\ unvariableify (variableify (ONumberProxy three)) = ONumberProxy three.
Proof.
  split; [reflexivity|].
  exact (proj1 (unvariableify_variableify (ONumberProxy three) eq_refl)).
Defined.

(** C10, against the claim as stated: a value that is a Variable already is
    returned unchanged by [variableify] and unwrapped by [unvariableify]. *)
Lemma unvariableify_variableify_of_Variable :
  unvariableify (variableify (OVariable (ONumberProxy three)))
  = ONumberProxy three
  /\ unvariableify (variableify (OVariable (ONumberProxy three)))
     <> OVariable (ONumberProxy three).
Proof. split; [reflexivity | discriminate]. Qed.

(** C3 and C9 at their failing inputs. *)
Example complex_of_ComplexProxy_raises :
  ComplexProxy___complex__ (ONumberProxy complex_i) idle_world
  = (Raise TypeError, idle_world).
Proof. reflexivity. Qed.

Example numberproxy_complex_raises :
  numberproxy c_complex (Some (Complex (S754_zero false) one_half)) idle_world
  = (Raise KeyError, idle_world).
Proof. reflexivity. Qed.

(** ** The further properties on the sample objects *)

Lemma construction_registers_name_witness :
  construction None idle_world (named_world ["t0"]) (ONumberProxy three)
  /\ exists trace n,
       tracectx idle_world = Some trace
       /\ getattr_name (ONumberProxy three) = Ok n
       /\ named_world ["t0"] = register n trace idle_world.
Proof.
  assert (H : construction None idle_world (named_world ["t0"])
                (ONumberProxy three)).
  { right. right. left. exists (Some (Int 3)), three.
    split; [right; left; reflexivity | reflexivity]. }
  split; [exact H|].
  destruct (construction_registers_name _ _ _ _ H)
    as (trace & n & H1 & H2 & H3 & _).
  exists trace, n. auto.
Defined.

Lemma failed_construction_and_names_witness :
  mem_string "t" (names empty_trace) = false
  /\ TensorProxy___init__ (Some "t") ONone (Some [-1]) (ODevice (device_ 0))
       (ODType (dtype_ 1)) idle_world
     = (Raise CheckError, named_world ["t"])
  /\ TensorProxy___init__ (Some "t") ONone (Some [1]) (ODevice (device_ 0))
       (ODType (dtype_ 1)) (named_world ["t"])
     = (Raise DuplicateNameError, named_world ["t"]).
Proof.
  split; [reflexivity|]. split; [reflexivity|].
  destruct (proj2 failed_construction_and_names "t" ONone (Some [-1])
              (ODevice (device_ 0)) (ODType (dtype_ 1)) empty_trace None
              CheckError (named_world ["t"]) eq_refl eq_refl)
    as (_ & H & _).
  exact (H ONone (Some [1]) (ODevice (device_ 0)) (ODType (dtype_ 1))).
Defined.

Lemma TensorProxy_validation_witness :
  mem_string "t" (names empty_trace) = false
  /\ valid_arguments (Some [2; 3]) (ODevice (device_ 0)) (OClass c_float)
     = true
  /\ exists t,
       fst (TensorProxy___init__ (Some "t") ONone (Some [2; 3])
              (ODevice (device_ 0)) (OClass c_float) idle_world) = Ok t.
Proof.
  split; [reflexivity|]. split; [reflexivity|].
  destruct (TensorProxy_validation "t" (Some [2; 3]) (ODevice (device_ 0))
              (OClass c_float) empty_trace None eq_refl) as ([_ H] & _).
  exact (H eq_refl).
Defined.

Lemma TensorProxy_like_and_dtype_witness :
  constructed_tensor tensor_2_3
  /\ tp_dtype tensor_2_3 = to_strong_dtype (tp_true_dtype tensor_2_3)
  /\ tp_true_dtype tensor_2_3 = numbertype_to_dtype c_float.
Proof.
  assert (Hc : constructed_tensor tensor_2_3).
  { exists None, ONone, (Some [2; 3]), (ODevice (device_ 0)), (OClass c_float),
      idle_world, (named_world ["t0"]).
    reflexivity. }
  destruct TensorProxy_like_and_dtype as (H1 & H2 & _).
  split; [exact Hc|]. split; [exact (H1 tensor_2_3 Hc)|].
  exact (H2 None (Some [2; 3]) (ODevice (device_ 0)) c_float idle_world
           (named_world ["t0"]) tensor_2_3 eq_refl eq_refl).
Defined.

Lemma numberproxy_python_type_witness :
  numberproxy c_bool (Some (Int 3)) idle_world
  = (Ok three, named_world ["t0"])
  /\ np_value three = Some (Int 3)
  /\ numberproxy c_int (Some (Bool true)) (named_world ["a"])
     = (Ok (mkNumberProxy k_IntegerProxy "t1" (Some (Bool true)) c_bool
              (Some (Int 1))), named_world ["t1"; "a"]).
Proof.
  split; [reflexivity|].
  split; [|reflexivity].
  exact (proj1 (numberproxy_python_type c_bool (Some (Int 3)) idle_world
                  (named_world ["t0"]) three eq_refl)).
Defined.

Lemma numeral_of_constructed_witness :
  new_IntegerProxy (Some "u") None idle_world
  = (Ok unknown_int, named_world ["u"])
  /\ np_numeral unknown_int = Some (Int (-9999))
  /\ known_value unknown_int = false.
Proof.
  assert (H : new_IntegerProxy (Some "u") None idle_world
              = (Ok unknown_int, named_world ["u"])) by reflexivity.
  split; [exact H|].
  destruct (numeral_of_constructed (Some "u") None idle_world
              (named_world ["u"]) unknown_int (or_intror (or_introl H)))
    as (Hk & Hn & _).
  split; [exact (Hn eq_refl) | exact (proj2 Hk eq_refl)].
Defined.

Lemma replace_name_registered_witness :
  tracectx (named_world ["t0"]) = Some (mkTraceCtx ["t0"])
  /\ mem_string "t0" (names (mkTraceCtx ["t0"])) = true
  /\ replace_name (OTensorProxy tensor_2_3) "t0" (named_world ["t0"])
     = (Raise DuplicateNameError, named_world ["t0"]).
Proof.
  split; [reflexivity|]. split; [reflexivity|].
  refine (proj1 (replace_name_registered (OTensorProxy tensor_2_3) "t0"
                   (named_world ["t0"]) _) (mkTraceCtx ["t0"]) eq_refl eq_refl).
  right. right. exists tensor_2_3. reflexivity.
Defined.

Lemma unary_operator_dispatch_witness :
  np_class minus_four <> k_NumberProxy
  /\ fst (unary_method recording_methods sample_complex_abs k_IntegerProxy
            __abs__ (ONumberProxy minus_four) idle_world)
     = Ok (ONum (Int 4))
  /\ unary_method recording_methods sample_complex_abs k_IntegerProxy __abs__
       (ONumberProxy minus_four) tracing_world
     = (Ok (OPair (OStr "abs") (ONumberProxy minus_four)), tracing_world).
Proof.
  assert (Hk : np_class minus_four <> k_NumberProxy) by discriminate.
  split; [exact Hk|].
  destruct (unary_operator_dispatch recording_methods sample_complex_abs
              minus_four __abs__ (Some empty_trace) Hk)
    as (Hctx & _ & Hint & _).
  split; [exact (Hint (-4) eq_refl) | exact (Hctx recording_ctx)].
Defined.

Lemma unknown_value_raises_witness :
  np_class unknown_int <> k_NumberProxy
  /\ np_value unknown_int = None
  /\ unary_method recording_methods sample_complex_abs k_IntegerProxy __neg__
       (ONumberProxy unknown_int) idle_world
     = (Raise AttributeError, idle_world).
Proof.
  assert (Hk : np_class unknown_int <> k_NumberProxy) by discriminate.
  split; [exact Hk|]. split; [reflexivity|].
  exact (proj2 (unknown_value_raises recording_methods sample_complex_abs
                  unknown_int (Some empty_trace) Hk eq_refl) __neg__).
Defined.

Lemma operators_keep_world_without_context_witness :
  langctx idle_world = None
  /\ snd (binary_method k_IntegerProxy __add__ (ONumberProxy three)
            (ONumberProxy four) idle_world) = idle_world.
Proof.
  split; [reflexivity|].
  exact (proj1 (operators_keep_world_without_context recording_methods
                  sample_complex_abs k_IntegerProxy (ONumberProxy three)
                  (ONumberProxy four) idle_world eq_refl) __add__).
Defined.

Lemma reflected_agrees_with_forward_witness :
  rank (Int 3) = rank (Int 4)
  /\ has_method (Int 3) (reflected_of Sub) = true
  /\ fst (binary_method k_IntegerProxy __rsub__ (ONumberProxy three)
            (ONumberProxy four) idle_world)
     = Ok (ONum (Int 1))
  /\ binary_method k_IntegerProxy __rsub__ (ONumberProxy three)
       (ONumberProxy four) idle_world
     = binary_method k_IntegerProxy __sub__ (ONumberProxy four)
         (ONumberProxy three) idle_world.
Proof.
  split; [reflexivity|]. split; [reflexivity|].
  destruct (proj2 (reflected_agrees_with_forward Sub (Some empty_trace))
              three four (Int 3) (Int 4)) as [Heq Hres];
    try reflexivity; try discriminate.
  split; [exact Hres | exact Heq].
Defined.

Lemma TensorProxy_getattr_witness :
  lc_method_lookup (recording_methods recording_ctx) "flatten"
  = Some (recordedn "flatten")
  /\ exists bound,
       TensorProxy___getattr__ recording_methods (OTensorProxy tensor_2_3)
         "flatten" tracing_world = (Ok bound, tracing_world)
       /\ call_ctxn bound [ONum (Int 1)] tracing_world
          = call_ctxn (recordedn "flatten")
              [OTensorProxy tensor_2_3; ONum (Int 1)] tracing_world.
Proof.
  split; [reflexivity|].
  destruct (proj2 (TensorProxy_getattr recording_methods
                     (OTensorProxy tensor_2_3) "flatten" (Some empty_trace))
              recording_ctx) as [_ H].
  destruct (H (recordedn "flatten") eq_refl) as (bound & Hb & Hcall).
  exists bound. split; [exact Hb | apply Hcall].
Defined.

Lemma Variable_of_other_values_witness :
  getattr_name (ONum (Int 5)) = Raise AttributeError
  /\ py_hash (new_Variable (ONum (Int 5))) = Raise AttributeError.
Proof.
  split; [reflexivity|].
  exact (proj1 (proj1 (Variable_of_other_values (ONum (Int 5))) eq_refl)).
Defined.

Lemma IntegerProxy_edges_witness :
  np_value three = Some (Int 3)
  /\ pyval (ONum (Int 0)) = Ok (ONum (Int 0))
  /\ fst (binary_method k_IntegerProxy __floordiv__ (ONumberProxy three)
            (ONum (Int 0)) idle_world) = Raise ZeroDivisionError.
Proof.
  split; [reflexivity|]. split; [reflexivity|].
  destruct (IntegerProxy_edges three (ONum (Int 0)) 3 0 (Some empty_trace)
              eq_refl eq_refl) as (H & _).
  exact (proj1 (H eq_refl)).
Defined.

Lemma FloatProxy_unary_edges_witness :
  np_value float_x = Some (Float one_half)
  /\ one_half <> S754_nan /\ (forall s, one_half <> S754_infinity s)
  /\ exists ce fl ro tr : Z,
       fst (unary_method recording_methods sample_complex_abs k_FloatProxy
              __ceil__ (ONumberProxy float_x) idle_world) = Ok (ONum (Int ce))
       /\ fst (unary_method recording_methods sample_complex_abs k_FloatProxy
                 __floor__ (ONumberProxy float_x) idle_world)
          = Ok (ONum (Int fl))
       /\ fst (unary_method recording_methods sample_complex_abs k_FloatProxy
                 __round__ (ONumberProxy float_x) idle_world)
          = Ok (ONum (Int ro))
       /\ fst (unary_method recording_methods sample_complex_abs k_FloatProxy
                 __trunc__ (ONumberProxy float_x) idle_world)
          = Ok (ONum (Int tr))
       /\ fl <= ro <= ce /\ fl <= tr <= ce /\ ce <= fl + 1.
Proof.
  assert (Hnan : one_half <> S754_nan) by discriminate.
  assert (Hinf : forall s, one_half <> S754_infinity s) by discriminate.
  split; [reflexivity|]. split; [exact Hnan|]. split; [exact Hinf|].
  destruct (FloatProxy_unary_edges recording_methods sample_complex_abs
              float_x one_half (Some empty_trace) eq_refl)
    as (_ & _ & _ & _ & H).
  exact (H Hnan Hinf).
Defined.
